(** * DeGeNz playground: session orchestrator, shallow embedding

    The development follows the Python sources module by module:
    [models] (the SQLAlchemy tables), [sandbox] (session membership and
    message append), [conflict_resolution] (the creation route and the
    voting route), [gemini_service] and [manager_agent] (delegation and
    synthesis around the generation service), [connection] and [server]
    (the websocket registry and the message pipeline).

    Conventions.
    - A route or coroutine is a function from the state it reads to a
      [result] and the state it leaves; [Raise e] is a Python exception
      leaving the function.  One call runs to completion: interleavings of
      coroutines at [await] points are not represented.
    - A table is the list of its rows in insertion order; [.first()] is the
      first matching row and [.count()] the number of matching rows.
      [db.commit()] stores the added rows and the attributes that were
      assigned a new value.  A JSON column is compared by value when the
      unit of work looks for changes: a dictionary that was loaded, changed
      in place and assigned back is the object the row already holds, so
      nothing is written for it and [db.refresh] reads the stored value
      back.
    - What the code leaves to the database engine (a key that refers to no
      row, a window outside the usual range) is a parameter of the
      database, [Engine].
    - A [dict] keeps insertion order ([odict]); the registry of live
      connections, where only membership matters, is a [gmap]. *)

From stdpp Require Import gmap strings list fin_maps pretty.
From Stdlib Require Import ZArith Ascii.

Local Open Scope string_scope.
Local Open Scope Z_scope.
Local Set Warnings "-register-all".

(** ** Python values *)

Module py.

(** Values of [Dict[str, Any]] payloads and of JSON columns. *)
Inductive json : Type :=
| JNull
| JBool (b : bool)
| JInt (n : Z)
| JFloat (lexeme : string)
| JStr (s : string)
| JArr (items : list json)
| JObj (fields : list (string * json)).

(** Exceptions that leave the modelled functions. *)
Inductive exn : Type :=
| HTTPException (status_code : Z) (detail : string)
| NameError (name : string)
| AttributeError (msg : string)
| KeyError (key : string)
| TypeError (msg : string)
| ValueError (msg : string)
| JSONDecodeError (msg : string)
| RecursionError (msg : string)
| OverflowError (msg : string)
| ServiceError (msg : string).

Inductive result (A : Type) : Type :=
| Ok (a : A)
| Raise (e : exn).
Arguments Ok {A} a.
Arguments Raise {A} e.

Definition is_ok {A} (r : result A) : bool :=
  match r with Ok _ => true | Raise _ => false end.

(** Insertion-ordered dictionaries with string keys. *)
Definition odict (V : Type) : Type := list (string * V).

Fixpoint dict_get {V} (d : odict V) (k : string) : option V :=
  match d with
  | [] => None
  | (k', v) :: d' => if String.eqb k' k then Some v else dict_get d' k
  end.

(** [d[k] = v]: an existing key keeps its position. *)
Fixpoint dict_set {V} (d : odict V) (k : string) (v : V) : odict V :=
  match d with
  | [] => [(k, v)]
  | (k', v') :: d' =>
      if String.eqb k' k then (k, v) :: d' else (k', v') :: dict_set d' k v
  end.

Definition dict_values {V} (d : odict V) : list V := map snd d.

(** [type(x).__name__], as error messages print it. *)
Definition type_name (j : json) : string :=
  match j with
  | JNull => "NoneType"
  | JBool _ => "bool"
  | JInt _ => "int"
  | JFloat _ => "float"
  | JStr _ => "str"
  | JArr _ => "list"
  | JObj _ => "dict"
  end.

(** [obj.get(k)] on a payload: a JSON object answers, anything else has no
    [get] attribute. *)
Definition json_get (j : json) (k : string) : result (option json) :=
  match j with
  | JObj fields => Ok (dict_get fields k)
  | _ =>
      Raise (AttributeError
               ("'" +:+ type_name j +:+ "' object has no attribute 'get'"))
  end.

(** [x == "literal"] for a payload field: only a [str] can equal a [str]. *)
Definition json_eq_str (j : json) (s : string) : bool :=
  match j with JStr s' => String.eqb s' s | _ => false end.

(** Decimal rendering of an [int] ([str(n)]). *)
Definition str_of_int (n : Z) : string := pretty n.

End py.
Export py.

(** ** models.py: the tables *)

Module models.

Record Agent := {
  agent_id_ : Z;
  agent_name : string;
  agent_role : string;
  agent_personality : string;
  agent_system_instructions : string;
  agent_examples : json;
  agent_owner_id : Z }.

Record Session := {
  session_id_ : Z;
  session_name : string;
  session_description : option string;
  session_owner_id : Z;
  session_is_active : bool }.

Record SessionAgent := {
  sa_id : Z;
  sa_session_id : Z;
  sa_agent_id : Z;
  sa_is_manager : bool }.

Inductive MessageType := USER | AGENT | AGENT_TO_AGENT | SYSTEM | CONFLICT_RESOLUTION | WORKFLOW.

Record Message := {
  msg_id : Z;
  msg_content : string;
  msg_session_id : Z;
  msg_session_agent_id : option Z;
  msg_user_id : option Z;
  msg_parent_id : option Z;
  msg_message_type : option MessageType;
  msg_created_at : Z }.

(** The [resolution_data] JSON column.  The routes only ever store four
    shapes of dictionary in it: the one posted with the request, the voting
    ballot, the consensus ledger and the failure note. *)
Inductive ResolutionData :=
| RequestData (data : odict json)
| VotingData (votes : odict string) (total_votes : Z) (options : json)
    (status : string)
| ConsensusData (proposals : odict string) (rounds : Z) (status : string)
| ErrorData (error : string) (status : string).

(** [resolution_data.get("status")] *)
Definition data_status (d : ResolutionData) : option json :=
  match d with
  | RequestData data => dict_get data "status"
  | VotingData _ _ _ status => Some (JStr status)
  | ConsensusData _ _ status => Some (JStr status)
  | ErrorData _ status => Some (JStr status)
  end.

Record ConflictResolution := {
  cr_id : Z;
  cr_session_id : Z;
  cr_conflict_message_id : Z;
  cr_resolution_method : string;
  cr_resolution_data : ResolutionData;
  cr_resolved_by_agent_id : option Z;
  cr_resolution_message_id : option Z;
  cr_resolved_at : option Z }.

(** The integers of 64 bits, [- 2 ^ 63] to [2 ^ 63 - 1]: those whose
    magnitude is written with fewer than 64 binary digits. *)
Definition fits_int64 (n : Z) : bool :=
  Z.log2 (if n <? 0 then - n - 1 else n) <? 63.

(** What the routes leave to the database engine.
    - [dangling_key p]: the answer to the insert of a message whose
      [parent_id] (an [Integer] column with a foreign key on [messages.id])
      is [p], when [p] is not the key of a stored message: [None] when the
      row is stored all the same, or the exception that ends the [commit]
      (the value does not fit the column, or the engine enforces the key).
    - [odd_window skip limit]: what [OFFSET skip LIMIT limit] selects when
      one of the two is negative or too large for the engine's integers: the
      number of rows passed over and the number of rows kept at most
      ([None]: no bound), or the exception that ends the query. *)
Record Engine := {
  dangling_key : Z -> option exn;
  odd_window : Z -> Z -> result (nat * option nat) }.

(** The database as one value: every table, the server clock that stamps
    [created_at], and the engine. *)
Record DB := {
  agents : list Agent;
  sessions : list Session;
  session_agents : list SessionAgent;
  messages : list Message;
  conflict_resolutions : list ConflictResolution;
  now : Z;
  engine : Engine }.

(** Autoincrement primary key: one more than the largest key in use. *)
Definition next_id (ids : list Z) : Z := 1 + foldr Z.max 0 ids.

(** [query(...).filter(...).first()] and [.count()] *)
Definition first {A} (p : A -> bool) (table : list A) : option A :=
  List.find p table.
Definition count {A} (p : A -> bool) (table : list A) : Z :=
  Z.of_nat (length (List.filter p table)).

(** [db.add(row); db.commit()] on each table touched by the routes. *)
Definition add_session_agent (sa : SessionAgent) (db : DB) : DB :=
  {| agents := agents db; sessions := sessions db;
     session_agents := session_agents db ++ [sa];
     messages := messages db;
     conflict_resolutions := conflict_resolutions db; now := now db;
     engine := engine db |}.

Definition add_message (m : Message) (db : DB) : DB :=
  {| agents := agents db; sessions := sessions db;
     session_agents := session_agents db;
     messages := messages db ++ [m];
     conflict_resolutions := conflict_resolutions db; now := now db;
     engine := engine db |}.

Definition add_conflict_resolution (c : ConflictResolution) (db : DB) : DB :=
  {| agents := agents db; sessions := sessions db;
     session_agents := session_agents db;
     messages := messages db;
     conflict_resolutions := conflict_resolutions db ++ [c]; now := now db;
     engine := engine db |}.

(** Commit of new values assigned to attributes of a loaded
    [ConflictResolution] row: the row with that key is replaced. *)
Definition update_conflict_resolution (c : ConflictResolution) (db : DB) : DB :=
  {| agents := agents db; sessions := sessions db;
     session_agents := session_agents db;
     messages := messages db;
     conflict_resolutions :=
       map (fun c' => if cr_id c' =? cr_id c then c else c')
           (conflict_resolutions db);
     now := now db;
     engine := engine db |}.

(** [Message(...)] followed by [db.add] and [db.commit]: the key and the
    timestamp are filled in by the database. *)
Definition new_message (db : DB) (content : string) (session_id : Z)
    (session_agent_id user_id parent_id : option Z)
    (message_type : option MessageType) : Message :=
  {| msg_id := next_id (map msg_id (messages db));
     msg_content := content;
     msg_session_id := session_id;
     msg_session_agent_id := session_agent_id;
     msg_user_id := user_id;
     msg_parent_id := parent_id;
     msg_message_type := message_type;
     msg_created_at := now db |}.

(** The check the database makes on the [parent_id] of a message row that
    is being inserted: the key of a stored message is accepted by every
    engine; what happens to any other value is the engine's. *)
Definition refused_parent (db : DB) (parent_id : option Z) : option exn :=
  match parent_id with
  | None => None
  | Some p =>
      if bool_decide (p ∈ map msg_id (messages db)) then None
      else dangling_key (engine db) p
  end.

(** Filters used by the routes. *)
Definition in_session (session_id : Z) (sa : SessionAgent) : bool :=
  sa_session_id sa =? session_id.
Definition manager_in_session (session_id : Z) (sa : SessionAgent) : bool :=
  (sa_session_id sa =? session_id) && sa_is_manager sa.

End models.
Export models.

(** ** schemas.py: request bodies *)

Module schemas.

Record MessageCreate := {
  mc_content : string;
  mc_session_id : Z;
  mc_session_agent_id : option Z;
  mc_user_id : option Z;
  mc_parent_id : option Z }.

(** The request body of the conflict-resolution route, with the fields the
    route reads from it. *)
Record ConflictResolutionCreate := {
  crc_session_id : Z;
  crc_conflict_message_id : Z;
  crc_resolution_method : string;
  crc_resolution_data : odict json;
  crc_resolved_by_agent_id : option Z }.

End schemas.
Export schemas.

(** ** sandbox.py *)

Module sandbox.

(** [add_agent_to_session]: the four checks in source order, then the new
    membership row. *)
Definition add_agent_to_session (session_id agent_id : Z) (is_manager : bool)
    (db : DB) (current_user : Z) : result json * DB :=
  match first (fun s => (session_id_ s =? session_id)
                        && (session_owner_id s =? current_user)) (sessions db) with
  | None => (Raise (HTTPException 404 "Session not found"), db)
  | Some _ =>
  match first (fun a => (agent_id_ a =? agent_id)
                        && (agent_owner_id a =? current_user)) (agents db) with
  | None => (Raise (HTTPException 404 "Agent not found"), db)
  | Some _ =>
  match first (fun sa => (sa_session_id sa =? session_id)
                         && (sa_agent_id sa =? agent_id)) (session_agents db) with
  | Some _ => (Raise (HTTPException 400 "Agent already in session"), db)
  | None =>
  if is_manager
     && bool_decide (is_Some (first (manager_in_session session_id)
                                    (session_agents db)))
  then (Raise (HTTPException 400 "Session already has a manager agent"), db)
  else
    let session_agent :=
      {| sa_id := next_id (map sa_id (session_agents db));
         sa_session_id := session_id;
         sa_agent_id := agent_id;
         sa_is_manager := is_manager |} in
    (Ok (JObj [("status", JStr "success");
               ("message", JStr "Agent added to session")]),
     add_session_agent session_agent db)
  end end end.

(** [send_message]: the session check, then the row is built with the
    posted [parent_id] and committed.  The route never reads the parent
    row; the only check on [parent_id] is the database's own. *)
Definition send_message (session_id : Z) (message : MessageCreate)
    (db : DB) (current_user : Z) : result Message * DB :=
  match first (fun s => (session_id_ s =? session_id)
                        && (session_owner_id s =? current_user)) (sessions db) with
  | None => (Raise (HTTPException 404 "Session not found"), db)
  | Some _ =>
      let db_message :=
        new_message db (mc_content message) session_id None
                    (Some current_user) (mc_parent_id message) None in
      match refused_parent db (mc_parent_id message) with
      | Some e => (Raise e, db)
      | None => (Ok db_message, add_message db_message db)
      end
  end.

End sandbox.

(** ** The services outside the repository *)

Module external.

(** What the code calls and does not define.
    - [arun n kwargs]: the [n]-th [chain.arun] of a run, called with the keyword
      arguments [kwargs]: the call into the generation service; it answers
      with text or raises.
    - [json_loads]: [json.loads] on a [str]: the decoded value, or the
      exception it raises: [JSONDecodeError] on text that is not JSON, and
      others besides ([RecursionError] on text nested too deep).
    - [json_dumps]: [json.dumps(_, indent=2)].
    - [py_repr]: [str()] of a float, list or dict.
    - [isoformat]: [datetime.isoformat()] of a [created_at] stamp.
    - [py_int]: [int()] on a [str]; [None] is [ValueError]. *)
Record Env := {
  arun : nat -> odict string -> result string;
  json_loads : string -> result json;
  json_dumps : json -> string;
  py_repr : json -> string;
  isoformat : Z -> string;
  py_int : string -> option Z }.

(** [str(x)], as f-strings apply it to a payload value. *)
Definition py_str (E : Env) (j : json) : string :=
  match j with
  | JStr s => s
  | JInt n => str_of_int n
  | JNull => "None"
  | JBool true => "True"
  | JBool false => "False"
  | _ => py_repr E j
  end.

(** The record of calls made into the generation service, oldest first. *)
Definition Calls : Type := list (odict string).

End external.
Export external.

(** ** Text helpers for the rendered prompts *)

Module text.

Definition dq : string := String (Ascii.ascii_of_nat 34) EmptyString.
Definition nl : string := String (Ascii.ascii_of_nat 10) EmptyString.
Definition fstr (parts : list string) : string := String.concat "" parts.
Definition unlines (ls : list string) : string := String.concat nl ls.

(** [str(e)] of a caught exception. *)
Definition exn_str (e : exn) : string :=
  match e with
  | HTTPException status_code detail =>
      fstr [str_of_int status_code; ": "; detail]
  | NameError name => fstr ["name '"; name; "' is not defined"]
  | AttributeError msg => msg
  | KeyError key => fstr ["'"; key; "'"]
  | TypeError msg => msg
  | ValueError msg => msg
  | JSONDecodeError msg => msg
  | RecursionError msg => msg
  | OverflowError msg => msg
  | ServiceError msg => msg
  end.

End text.
Export text.

(** ** gemini_service.py *)

Module gemini_service.

(** The [agent] dictionaries handed to the service. *)
Record AgentData := {
  ad_id : Z;
  ad_name : string;
  ad_role : string;
  ad_personality : string;
  ad_system_instructions : string;
  ad_examples : json }.

Section service.
Variable E : Env.

(** [GeminiService.generate_response]: one call into the chain. *)
Definition generate_response (prompt : string)
    (system_instructions : option string) (calls : Calls)
    : result string * Calls :=
  let instructions :=
    match system_instructions with
    | Some s => if String.eqb s "" then "You are a helpful AI assistant." else s
    | None => "You are a helpful AI assistant."
    end in
  let kwargs := [("prompt", prompt); ("system_instructions", instructions)] in
  (arun E (length calls) kwargs, (calls ++ [kwargs])%list).

(** [GeminiService.apply_agent_persona] *)
Definition apply_agent_persona (prompt : string) (agent : AgentData)
    (calls : Calls) : result string * Calls :=
  let system_instructions :=
    unlines [
      "";
      "        You are an AI assistant with the following characteristics:";
      fstr ["        Name: "; ad_name agent];
      fstr ["        Role: "; ad_role agent];
      fstr ["        Personality: "; ad_personality agent];
      "        ";
      fstr ["        "; ad_system_instructions agent];
      "        ";
      "        Respond in character, maintaining the personality and role described above.";
      "        " ] in
  match generate_response prompt (Some system_instructions) calls with
  | (Ok response, calls') =>
      (Ok (fstr [ad_name agent; " ("; ad_role agent; "): "; response]), calls')
  | (Raise e, calls') => (Raise e, calls')
  end.

(** The instructions rendered by [run_manager_workflow]. *)
Definition delegation_instructions (available_agents : list AgentData)
    : string :=
  let agents_str :=
    String.concat nl
      (map (fun agent =>
              fstr ["ID: "; str_of_int (ad_id agent);
                    ", Name: "; ad_name agent;
                    ", Role: "; ad_role agent;
                    ", Personality: "; ad_personality agent])
           available_agents) in
  unlines [
    "";
    "        You are a Manager Agent responsible for orchestrating tasks between different AI agents.";
    "        ";
    "        Available agents:";
    fstr ["        "; agents_str];
    "        ";
    "        Based on the user message, decide which agent(s) should handle this task.";
    "        ";
    "        Your response should be in the following JSON format:";
    "        {";
    fstr ["            "; dq; "thought"; dq; ": "; dq; "your reasoning process"; dq; ","];
    fstr ["            "; dq; "assigned_agents"; dq; ": ["];
    "                {";
    fstr ["                    "; dq; "agent_id"; dq; ": "; dq; "id of the agent"; dq; ","];
    fstr ["                    "; dq; "task"; dq; ": "; dq; "specific task for this agent"; dq];
    "                }";
    "            ]";
    "        }";
    "        " ].

(** The plan returned when the answer does not decode. *)
Definition failed_plan : json :=
  JObj [("thought", JStr "Failed to parse response");
        ("assigned_agents", JArr [])].

(** [LangChainService.run_manager_workflow]: the delegation step.  The
    [except] clause names [json.JSONDecodeError] and nothing else. *)
Definition run_manager_workflow (user_message : string)
    (available_agents : list AgentData) (calls : Calls)
    : result json * Calls :=
  match generate_response user_message
          (Some (delegation_instructions available_agents)) calls with
  | (Raise e, calls') => (Raise e, calls')
  | (Ok response, calls') =>
      match json_loads E response with
      | Ok result => (Ok result, calls')
      | Raise (JSONDecodeError _) => (Ok failed_plan, calls')
      | Raise e => (Raise e, calls')
      end
  end.

(** [LangChainService.run_agent_workflow] *)
Definition run_agent_workflow (agent : AgentData) (task : string)
    (calls : Calls) : result string * Calls :=
  apply_agent_persona task agent calls.

(** [response.get(key, default)], formatted into an f-string. *)
Definition get_str (response : odict json) (key default : string) : string :=
  match dict_get response key with
  | Some v => py_str E v
  | None => default
  end.

(** The [enumerate] loop that renders one line per response. *)
Fixpoint render_responses (i : Z) (responses : list (odict json))
    : list string :=
  match responses with
  | [] => []
  | response :: rest =>
      fstr ["Agent "; str_of_int (i + 1);
            " ("; get_str response "agent_name" "Unknown"; "): ";
            get_str response "content" ""]
      :: render_responses (i + 1) rest
  end.

(** The instructions rendered by [resolve_conflicts]. *)
Definition synthesis_instructions (responses : list (odict json)) : string :=
  let responses_str :=
    String.concat (nl +:+ nl) (render_responses 0 responses) in
  unlines [
    "";
    "        You are a Conflict Resolution Agent responsible for evaluating multiple agent responses and selecting the best one.";
    "        ";
    "        Agent responses:";
    fstr ["        "; responses_str];
    "        ";
    "        Evaluate the responses and select the best one. If there are conflicts, resolve them by combining the best parts of each response.";
    "        ";
    "        Your response should be in the following JSON format:";
    "        {";
    fstr ["            "; dq; "thought"; dq; ": "; dq; "your reasoning process"; dq; ","];
    fstr ["            "; dq; "result"; dq; ": "; dq; "the final resolved response"; dq];
    "        }";
    "        " ].

(** [LangChainService.resolve_conflicts]: the synthesis step. *)
Definition resolve_conflicts (responses : list (odict json)) (calls : Calls)
    : result json * Calls :=
  match responses with
  | [] => (Ok (JObj [("result", JStr "No responses to resolve")]), calls)
  | first_response :: _ =>
      match generate_response
              "Resolve the conflicts between these agent responses."
              (Some (synthesis_instructions responses)) calls with
      | (Raise e, calls') => (Raise e, calls')
      | (Ok response, calls') =>
          match json_loads E response with
          | Ok result => (Ok result, calls')
          | Raise (JSONDecodeError _) =>
              (Ok (JObj [("thought", JStr "Failed to parse response");
                         ("result",
                          default (JStr "No valid response")
                                  (dict_get first_response "content"))]),
               calls')
          | Raise e => (Raise e, calls')
          end
      end
  end.

End service.
End gemini_service.
Export gemini_service.

(** ** manager_agent.py *)

Module manager_agent.
Section agent.
Variable E : Env.

(** The keyword arguments [process_message] passes to its chain. *)
Definition delegation_kwargs (user_message : string)
    (available_agents : list AgentData) : odict string :=
  let agents_str :=
    String.concat nl
      (map (fun agent =>
              fstr ["ID: "; str_of_int (ad_id agent);
                    ", Name: "; ad_name agent;
                    ", Role: "; ad_role agent])
           available_agents) in
  [("agents", agents_str); ("user_message", user_message)].

(** [ManagerAgent.process_message] *)
Definition process_message (user_message : string)
    (available_agents : list AgentData) (calls : Calls)
    : result json * Calls :=
  let kwargs := delegation_kwargs user_message available_agents in
  match arun E (length calls) kwargs with
  | Raise e => (Raise e, (calls ++ [kwargs])%list)
  | Ok response =>
      match json_loads E response with
      | Ok result => (Ok result, (calls ++ [kwargs])%list)
      | Raise (JSONDecodeError _) => (Ok failed_plan, (calls ++ [kwargs])%list)
      | Raise e => (Raise e, (calls ++ [kwargs])%list)
      end
  end.

(** [ManagerAgent.resolve_conflicts]: no call into the chain at all. *)
Definition resolve_conflicts (responses : list (odict json)) (calls : Calls)
    : result json * Calls :=
  match responses with
  | [] => (Ok (JObj [("result", JStr "No responses to resolve")]), calls)
  | first_response :: _ =>
      match dict_get first_response "content" with
      | Some content => (Ok (JObj [("result", content)]), calls)
      | None => (Raise (KeyError "content"), calls)
      end
  end.

End agent.
End manager_agent.

(** ** conflict_resolution.py *)

Module conflict_resolution.

(** The body of a vote: an integer agent id and an option label, each of
    which may be missing. *)
Record VoteData := {
  vd_agent_id : option Z;
  vd_vote : option string }.

(** The counting loop over [votes.values()]. *)
Definition count_votes (votes : odict string) : odict Z :=
  fold_left (fun vote_counts v =>
               dict_set vote_counts v (default 0 (dict_get vote_counts v) + 1))
            (dict_values votes) [].

(** The loop that keeps the first option with a strictly larger count. *)
Definition find_winner (vote_counts : odict Z) : Z * option string :=
  fold_left (fun '(max_votes, winning_option) '(option, n) =>
               if n >? max_votes then (n, Some option)
               else (max_votes, winning_option))
            vote_counts (0, None).

Definition winning_option (votes : odict string) : option string :=
  snd (find_winner (count_votes votes)).

(** [f"{winning_option}"] *)
Definition str_of_option (o : option string) : string :=
  match o with Some s => s | None => "None" end.

Section routes.
Variable E : Env.

(** The resolution row as first committed, before the method is looked at. *)
Definition new_resolution (conflict_resolution : ConflictResolutionCreate)
    (db : DB) : ConflictResolution :=
  {| cr_id := next_id (map cr_id (conflict_resolutions db));
     cr_session_id := crc_session_id conflict_resolution;
     cr_conflict_message_id := crc_conflict_message_id conflict_resolution;
     cr_resolution_method := crc_resolution_method conflict_resolution;
     cr_resolution_data := RequestData (crc_resolution_data conflict_resolution);
     cr_resolved_by_agent_id := crc_resolved_by_agent_id conflict_resolution;
     cr_resolution_message_id := None;
     cr_resolved_at := None |}.

Definition set_data (c : ConflictResolution) (d : ResolutionData)
    : ConflictResolution :=
  {| cr_id := cr_id c; cr_session_id := cr_session_id c;
     cr_conflict_message_id := cr_conflict_message_id c;
     cr_resolution_method := cr_resolution_method c;
     cr_resolution_data := d;
     cr_resolved_by_agent_id := cr_resolved_by_agent_id c;
     cr_resolution_message_id := cr_resolution_message_id c;
     cr_resolved_at := cr_resolved_at c |}.

Definition set_resolution_message_id (c : ConflictResolution) (m : option Z)
    : ConflictResolution :=
  {| cr_id := cr_id c; cr_session_id := cr_session_id c;
     cr_conflict_message_id := cr_conflict_message_id c;
     cr_resolution_method := cr_resolution_method c;
     cr_resolution_data := cr_resolution_data c;
     cr_resolved_by_agent_id := cr_resolved_by_agent_id c;
     cr_resolution_message_id := m;
     cr_resolved_at := cr_resolved_at c |}.

(** [resolution_data.get("options", [])] on the posted data. *)
Definition posted_options (conflict_resolution : ConflictResolutionCreate)
    : json :=
  default (JArr []) (dict_get (crc_resolution_data conflict_resolution) "options").

(** The [except Exception as e] handler of the manager decision: the row is
    marked failed and the request ends with status 500. *)
Definition manager_failed (row : ConflictResolution) (e : exn) (db : DB)
    (calls : Calls) : result ConflictResolution * DB * Calls :=
  (Raise (HTTPException 500 (fstr ["Error resolving conflict: "; exn_str e])),
   update_conflict_resolution
     (set_data row (ErrorData (exn_str e) "failed")) db,
   calls).

(** The manager-decision branch once a manager membership is found. *)
Definition manager_decision (conflict_resolution : ConflictResolutionCreate)
    (row : ConflictResolution) (conflict_message : Message)
    (manager_agent : SessionAgent) (db : DB) (calls : Calls)
    : result ConflictResolution * DB * Calls :=
  match first (fun a => agent_id_ a =? sa_agent_id manager_agent) (agents db) with
  | None =>
      (Raise (AttributeError "'NoneType' object has no attribute 'name'"),
       db, calls)
  | Some manager =>
      let related_messages :=
        JArr (map (fun msg =>
                     JObj [("agent_id",
                            match msg_session_agent_id msg with
                            | Some i => JInt i | None => JNull end);
                           ("content", JStr (msg_content msg))])
                  (List.filter
                     (fun msg =>
                        match msg_session_agent_id msg with
                        | Some i => negb (i =? 0) | None => false end)
                     (List.filter
                        (fun msg =>
                           (msg_session_id msg
                              =? crc_session_id conflict_resolution)
                           && bool_decide (msg_parent_id msg
                                           = msg_parent_id conflict_message))
                        (messages db)))) in
      let options := posted_options conflict_resolution in
      let prompt :=
        unlines [
          "";
          fstr ["        You are "; agent_name manager; ", a "; agent_role manager; " with the following personality: "; agent_personality manager];
          "        ";
          "        You need to resolve a conflict between different agent responses.";
          "        ";
          fstr ["        Original message: "; msg_content conflict_message];
          "        ";
          "        Agent responses:";
          fstr ["        "; json_dumps E related_messages];
          "        ";
          "        Options to choose from:";
          fstr ["        "; json_dumps E options];
          "        ";
          "        Please resolve this conflict by selecting the best option or providing a synthesis of the responses.";
          "        Your decision should be clear and well-reasoned.";
          "        " ] in
      let agent_data :=
        {| ad_id := agent_id_ manager; ad_name := agent_name manager;
           ad_role := agent_role manager;
           ad_personality := agent_personality manager;
           ad_system_instructions := agent_system_instructions manager;
           ad_examples := agent_examples manager |} in
      match run_agent_workflow E agent_data prompt calls with
      | (Raise e, calls') => manager_failed row e db calls'
      | (Ok response, calls') =>
          let resolution_message :=
            new_message db response (crc_session_id conflict_resolution)
                        (Some (sa_id manager_agent)) None
                        (msg_parent_id conflict_message)
                        (Some CONFLICT_RESOLUTION) in
          let db' := add_message resolution_message db in
          let row' :=
            set_resolution_message_id row (Some (msg_id resolution_message)) in
          (* [resolved_at = func.now()]: the module never binds [func] *)
          manager_failed row' (NameError "func") db' calls'
      end
  end.

(** [create_conflict_resolution] *)
Definition create_conflict_resolution
    (conflict_resolution : ConflictResolutionCreate) (db : DB)
    (current_user : Z) (calls : Calls)
    : result ConflictResolution * DB * Calls :=
  match first (fun s => session_id_ s =? crc_session_id conflict_resolution)
              (sessions db) with
  | None => (Raise (HTTPException 404 "Session not found"), db, calls)
  | Some session =>
  if negb (session_owner_id session =? current_user)
  then (Raise (HTTPException 403 "Not authorized to access this session"),
        db, calls)
  else
  match first (fun m => msg_id m =? crc_conflict_message_id conflict_resolution)
              (messages db) with
  | None => (Raise (HTTPException 404 "Conflict message not found"), db, calls)
  | Some conflict_message =>
      let row := new_resolution conflict_resolution db in
      let db1 := add_conflict_resolution row db in
      if String.eqb (crc_resolution_method conflict_resolution) "voting" then
        let row' :=
          set_data row
            (VotingData [] 0 (posted_options conflict_resolution) "in_progress") in
        (Ok row', update_conflict_resolution row' db1, calls)
      else if String.eqb (crc_resolution_method conflict_resolution)
                         "manager_decision" then
        match first (manager_in_session (crc_session_id conflict_resolution))
                    (session_agents db1) with
        | None =>
            (Raise (HTTPException 400 "No manager agent found in this session"),
             db1, calls)
        | Some manager_agent =>
            manager_decision conflict_resolution row conflict_message
                             manager_agent db1 calls
        end
      else if String.eqb (crc_resolution_method conflict_resolution)
                         "consensus" then
        let row' := set_data row (ConsensusData [] 0 "in_progress") in
        (Ok row', update_conflict_resolution row' db1, calls)
      else (Ok row, db1, calls)
  end end.

(** The branch of [submit_vote] taken once the tally reaches the number of
    memberships: the winner is computed from the ballot as changed in
    place and announced in a new message.  The statement after it reads
    [func.now()], and the module never binds [func]: the route ends there
    with [NameError], after the message is committed; the resolution row
    is as it was stored. *)
Definition announce_result (row : ConflictResolution)
    (session_agent : SessionAgent) (votes : odict string) (db : DB)
    : result ConflictResolution * DB :=
  let conflict_message :=
    first (fun m => msg_id m =? cr_conflict_message_id row) (messages db) in
  let manager_agent :=
    default session_agent
            (first (manager_in_session (cr_session_id row)) (session_agents db)) in
  let resolution_message :=
    new_message db
      (fstr ["Conflict resolved by voting. The winning option is: ";
             str_of_option (winning_option votes)])
      (cr_session_id row)
      (Some (sa_id manager_agent)) None
      (match conflict_message with
       | Some m => msg_parent_id m
       | None => None
       end)
      (Some CONFLICT_RESOLUTION) in
  (Raise (NameError "func"), add_message resolution_message db).

(** [submit_vote] *)
Definition submit_vote (conflict_resolution_id : Z) (vote_data : VoteData)
    (db : DB) (current_user : Z) : result ConflictResolution * DB :=
  match first (fun c => cr_id c =? conflict_resolution_id)
              (conflict_resolutions db) with
  | None => (Raise (HTTPException 404 "Conflict resolution not found"), db)
  | Some row =>
  match first (fun s => session_id_ s =? cr_session_id row) (sessions db) with
  | None =>
      (Raise (AttributeError "'NoneType' object has no attribute 'owner_id'"), db)
  | Some session =>
  if negb (session_owner_id session =? current_user) then
    (Raise (HTTPException 403
              "Not authorized to access this conflict resolution"), db)
  else if negb (String.eqb (cr_resolution_method row) "voting") then
    (Raise (HTTPException 400 "This conflict resolution does not use voting"), db)
  else if negb (match data_status (cr_resolution_data row) with
                | Some status => json_eq_str status "in_progress"
                | None => false
                end) then
    (Raise (HTTPException 400 "Voting has already ended"), db)
  else
  match vd_agent_id vote_data, vd_vote vote_data with
  | Some agent_id, Some vote =>
    if agent_id =? 0 then
      (Raise (HTTPException 400 "Agent ID and vote are required"), db)
    else
    match first (fun sa => (sa_id sa =? agent_id)
                           && (sa_session_id sa =? cr_session_id row))
                (session_agents db) with
    | None => (Raise (HTTPException 404 "Agent not found in this session"), db)
    | Some session_agent =>
      match cr_resolution_data row with
      | VotingData votes total_votes options status =>
          (* [voting_data] is the dictionary the row holds; the vote and
             the tally are written into that object *)
          let votes' := dict_set votes (str_of_int agent_id) vote in
          let total_votes' := total_votes + 1 in
          let session_agent_count :=
            count (in_session (cr_session_id row)) (session_agents db) in
          if total_votes' >=? session_agent_count then
            announce_result row session_agent votes' db
          else
            (* [resolution_data = voting_data] assigns the object the row
               already holds: no change is seen, [commit] writes nothing
               and [refresh] reads the stored row back *)
            (Ok row, db)
      | _ => (Raise (KeyError "votes"), db)
      end
    end
  | _, _ => (Raise (HTTPException 400 "Agent ID and vote are required"), db)
  end
  end end.

End routes.
End conflict_resolution.

(** ** Live connections *)

Module sockets.

(** A websocket object, by identity. *)
Definition WebSocket : Type := nat.

(** [active_connections]: session id, then client id, to websocket. *)
Abbreviation Registry := (gmap string (gmap string WebSocket)).

(** What each websocket has been sent, oldest first.  The order of sends
    to one websocket is kept; the order across websockets is not recorded. *)
Abbreviation Outboxes := (gmap WebSocket (list json)).

(** [await connection.send_json(message)] *)
Definition send_json (connection : WebSocket) (message : json)
    (out : Outboxes) : Outboxes :=
  <[connection := (default [] (out !! connection) ++ [message])%list]> out.

(** [for connection in conns.values(): await connection.send_json(message)] *)
Definition send_all (conns : gmap string WebSocket) (message : json)
    (out : Outboxes) : Outboxes :=
  map_fold (fun _ connection acc => send_json connection message acc) out conns.

(** The messages a websocket has received. *)
Definition received (out : Outboxes) (connection : WebSocket) : list json :=
  default [] (out !! connection).

End sockets.
Export sockets.

(** ** connection.py *)

Module connection.

(** [ConnectionManager.connect] *)
Definition connect (websocket : WebSocket) (session_id client_id : string)
    (active_connections : Registry) : Registry :=
  let active_connections' :=
    match active_connections !! session_id with
    | None => <[session_id := ∅]> active_connections
    | Some _ => active_connections
    end in
  alter (fun conns => <[client_id := websocket]> conns) session_id
        active_connections'.

(** [ConnectionManager.disconnect] *)
Definition disconnect (session_id client_id : string)
    (active_connections : Registry) : Registry :=
  match active_connections !! session_id with
  | None => active_connections
  | Some conns =>
      let conns' :=
        match conns !! client_id with
        | Some _ => delete client_id conns
        | None => conns
        end in
      if bool_decide (conns' = ∅) then delete session_id active_connections
      else <[session_id := conns']> active_connections
  end.

(** [ConnectionManager.send_message]; [client_id] defaults to [None], and
    the test [if client_id:] sends an empty id down the broadcast branch
    as well. *)
Definition send_message (message : json) (session_id : string)
    (client_id : option string) (active_connections : Registry)
    (out : Outboxes) : Outboxes :=
  match active_connections !! session_id with
  | None => out
  | Some conns =>
      match client_id with
      | Some (String a s as c) =>
          match conns !! c with
          | Some connection => send_json connection message out
          | None => out
          end
      | Some EmptyString | None => send_all conns message out
      end
  end.

(** [ConnectionManager.broadcast_agent_message] *)
Definition broadcast_agent_message (message : json) (session_id : string)
    (active_connections : Registry) (out : Outboxes) : Outboxes :=
  match active_connections !! session_id with
  | None => out
  | Some conns =>
      send_all conns (JObj [("type", JStr "agent_message"); ("data", message)])
               out
  end.

Section service.
Variable E : Env.

(** [data.get(key)] rendered by an f-string; a missing key reads [None]. *)
Definition fmt_get (data : odict json) (key : string) (default : json)
    : string :=
  py_str E (match dict_get data key with Some v => v | None => default end).

(** [WebSocketService.handle_message] *)
Definition handle_message (data : odict json) (session_id client_id : string)
    (active_connections : Registry) (out : Outboxes) : Outboxes :=
  let message_type := default JNull (dict_get data "type") in
  if json_eq_str message_type "user_message" then
    broadcast_agent_message
      (JObj [("content",
              JStr (fstr ["Received: "; fmt_get data "content" (JStr "")]));
             ("agent_name", JStr "Echo Agent");
             ("agent_role", JStr "Echo")])
      session_id active_connections out
  else if json_eq_str message_type "agent_added" then
    broadcast_agent_message
      (JObj [("content",
              JStr (fstr ["Agent ";
                          fmt_get data "agent_name" (JStr "Unknown Agent");
                          " has joined the session"]));
             ("agent_name", JStr "System");
             ("agent_role", JStr "Notification")])
      session_id active_connections out
  else
    send_message
      (JObj [("type", JStr "error");
             ("message",
              JStr (fstr ["Unknown message type: "; py_str E message_type]))])
      session_id (Some client_id) active_connections out.

End service.
End connection.

(** ** server.py *)

Module server.

(** What a run of the pipeline reads and writes besides the registry. *)
Record State := {
  st_db : DB;
  st_calls : Calls;
  st_out : Outboxes }.

Definition with_db (st : State) (db : DB) : State :=
  {| st_db := db; st_calls := st_calls st; st_out := st_out st |}.
Definition with_calls (st : State) (calls : Calls) : State :=
  {| st_db := st_db st; st_calls := calls; st_out := st_out st |}.
Definition with_out (st : State) (out : Outboxes) : State :=
  {| st_db := st_db st; st_calls := st_calls st; st_out := out |}.

(** [WebSocketManager.broadcast_notification] *)
Definition broadcast_notification (session_id : string) (notification : json)
    (active_connections : Registry) (out : Outboxes) : Outboxes :=
  match active_connections !! session_id with
  | None => out
  | Some conns => send_all conns notification out
  end.

(** [WebSocketManager.broadcast_agent_message] *)
Definition broadcast_agent_message (session_id : string) (message : json)
    (active_connections : Registry) (out : Outboxes) : Outboxes :=
  match active_connections !! session_id with
  | None => out
  | Some conns =>
      send_all conns (JObj [("type", JStr "agent_message"); ("data", message)])
               out
  end.

(** [WebSocketManager.send_direct_message] *)
Definition send_direct_message (session_id client_id : string) (message : json)
    (active_connections : Registry) (out : Outboxes) : Outboxes :=
  match active_connections !! session_id with
  | None => out
  | Some conns =>
      match conns !! client_id with
      | Some connection => send_json connection message out
      | None => out
      end
  end.

(** [WebSocketManager.connect]: the registry update of [connection.connect]
    followed by the notification to the session. *)
Definition connect (websocket : WebSocket) (session_id client_id : string)
    (active_connections : Registry) (out : Outboxes) : Registry * Outboxes :=
  let active_connections' :=
    alter (fun conns => <[client_id := websocket]> conns) session_id
          match active_connections !! session_id with
          | None => <[session_id := ∅]> active_connections
          | Some _ => active_connections
          end in
  (active_connections',
   broadcast_notification session_id
     (JObj [("type", JStr "connection");
            ("client_id", JStr client_id);
            ("message", JStr (fstr ["Client "; client_id; " connected"]))])
     active_connections' out).

(** [WebSocketManager.disconnect] *)
Definition disconnect (session_id client_id : string)
    (active_connections : Registry) : Registry :=
  match active_connections !! session_id with
  | None => active_connections
  | Some conns =>
      let conns' :=
        match conns !! client_id with
        | Some _ => delete client_id conns
        | None => conns
        end in
      if bool_decide (conns' = ∅) then delete session_id active_connections
      else <[session_id := conns']> active_connections
  end.

Section pipeline.
Variable E : Env.

Definition error_envelope (text : string) : json :=
  JObj [("type", JStr "error"); ("message", JStr text)].

(** [message.get("content", "")], as the text handed on. *)
Definition content_of (message : odict json) : string :=
  match dict_get message "content" with
  | Some v => py_str E v
  | None => ""
  end.

Definition agent_data_of (agent : Agent) : AgentData :=
  {| ad_id := agent_id_ agent; ad_name := agent_name agent;
     ad_role := agent_role agent;
     ad_personality := agent_personality agent;
     ad_system_instructions := agent_system_instructions agent;
     ad_examples := agent_examples agent |}.

(** The dictionary broadcast for a stored agent message. *)
Definition response_dict (m : Message) (content name role : string)
    : odict json :=
  [("id", JInt (msg_id m));
   ("content", JStr content);
   ("agent_name", JStr name);
   ("agent_role", JStr role);
   ("timestamp", JStr (isoformat E (msg_created_at m)))].

(** The roster loop: one dictionary per membership whose agent row exists. *)
Fixpoint collect_available (db : DB) (session_agents : list SessionAgent)
    : list AgentData :=
  match session_agents with
  | [] => []
  | sa :: rest =>
      match first (fun a => agent_id_ a =? sa_agent_id sa) (agents db) with
      | Some agent => agent_data_of agent :: collect_available db rest
      | None => collect_available db rest
      end
  end.

(** Iterating a decoded value in a [for] loop. *)
Definition iter_items (j : json) : result (list json) :=
  match j with
  | JArr items => Ok items
  | JObj fields => Ok (map (fun kv => JStr (fst kv)) fields)
  | JStr s =>
      Ok (map (fun c => JStr (String c EmptyString)) (String.list_ascii_of_string s))
  | _ => Raise (TypeError (fstr ["'"; type_name j; "' object is not iterable"]))
  end.

(** [int(agent_id)] on a decoded value.  The loop reaches it only when
    [str(agent_id)] is the decimal text of an agent key, which no float,
    list or dict prints as; the generator evaluates it once per membership,
    so not at all on an empty list. *)
Definition int_of_json (j : json) : result Z :=
  match j with
  | JInt n => Ok n
  | JBool b => Ok (if b then 1 else 0)
  | JStr s =>
      match py_int E s with
      | Some n => Ok n
      | None =>
          Raise (ValueError
                   (fstr ["invalid literal for int() with base 10: '"; s; "'"]))
      end
  | _ =>
      Raise (TypeError
               (fstr ["int() argument must be a string, a bytes-like object ";
                      "or a real number, not '"; type_name j; "'"]))
  end.

(** One turn of the loop over [assigned_agents]. *)
Definition run_assignment (session_id : Z) (session_agents : list SessionAgent)
    (available_agents : list AgentData) (db_message : Message)
    (assignment : json) (st : State)
    : result (option (odict json)) * State :=
  match json_get assignment "agent_id", json_get assignment "task" with
  | Ok agent_id, Ok task =>
      let agent_id := default JNull agent_id in
      let task := default JNull task in
      match first (fun a => String.eqb (str_of_int (ad_id a)) (py_str E agent_id))
                  available_agents with
      | None => (Ok None, st)
      | Some agent_data =>
          match run_agent_workflow E agent_data (py_str E task) (st_calls st) with
          | (Raise e, calls') => (Raise e, with_calls st calls')
          | (Ok response, calls') =>
              let st := with_calls st calls' in
              match (match session_agents with
                     | [] => Ok 0
                     | _ :: _ => int_of_json agent_id
                     end) with
              | Raise e => (Raise e, st)
              | Ok n =>
                  match first (fun sa => sa_agent_id sa =? n) session_agents with
                  | None => (Ok None, st)
                  | Some session_agent =>
                      let agent_db_message :=
                        new_message (st_db st) response session_id
                                    (Some (sa_id session_agent)) None
                                    (Some (msg_id db_message)) None in
                      (Ok (Some (response_dict agent_db_message response
                                   (ad_name agent_data) (ad_role agent_data))),
                       with_db st (add_message agent_db_message (st_db st)))
                  end
              end
          end
      end
  | Raise e, _ | _, Raise e => (Raise e, st)
  end.

(** The loop over [assigned_agents], collecting [agent_responses]. *)
Fixpoint run_assignments (session_id : Z) (session_agents : list SessionAgent)
    (available_agents : list AgentData) (db_message : Message)
    (assignments : list json) (st : State)
    : result (list (odict json)) * State :=
  match assignments with
  | [] => (Ok [], st)
  | assignment :: rest =>
      match run_assignment session_id session_agents available_agents
                           db_message assignment st with
      | (Raise e, st') => (Raise e, st')
      | (Ok r, st') =>
          match run_assignments session_id session_agents available_agents
                                db_message rest st' with
          | (Raise e, st'') => (Raise e, st'')
          | (Ok rs, st'') =>
              (Ok (match r with Some d => d :: rs | None => rs end), st'')
          end
      end
  end.

(** A direct error to the sender, after which the coroutine returns. *)
Definition reply_error (session_id client_id : string) (text : string)
    (active_connections : Registry) (st : State) : State :=
  with_out st (send_direct_message session_id client_id (error_envelope text)
                                   active_connections (st_out st)).

(** The branch without a manager: the first membership answers the raw
    user text. *)
Definition single_agent (session_id client_id : string) (sid : Z)
    (db_session : Session) (message : odict json) (agent_to_use : SessionAgent)
    (active_connections : Registry) (st : State) : result unit * State :=
  match first (fun a => agent_id_ a =? sa_agent_id agent_to_use)
              (agents (st_db st)) with
  | None =>
      (Ok tt, reply_error session_id client_id "Agent not found"
                          active_connections st)
  | Some agent =>
      match run_agent_workflow E (agent_data_of agent) (content_of message)
                               (st_calls st) with
      | (Raise e, calls') => (Raise e, with_calls st calls')
      | (Ok response, calls') =>
          let st := with_calls st calls' in
          let db_message :=
            new_message (st_db st) (content_of message) sid None
                        (Some (session_owner_id db_session)) None None in
          let st := with_db st (add_message db_message (st_db st)) in
          let agent_db_message :=
            new_message (st_db st) response sid (Some (sa_id agent_to_use))
                        None (Some (msg_id db_message)) None in
          let st := with_db st (add_message agent_db_message (st_db st)) in
          (Ok tt,
           with_out st
             (broadcast_agent_message session_id
                (JObj (response_dict agent_db_message response
                         (agent_name agent) (agent_role agent)))
                active_connections (st_out st)))
      end
  end.

(** [if len(agent_responses) > 1]: the synthesis, stored under the user
    message in the manager's name and broadcast. *)
Definition resolve_step (session_id : string) (sid : Z)
    (manager_agent : SessionAgent) (manager : Agent) (db_message : Message)
    (agent_responses : list (odict json)) (active_connections : Registry)
    (st : State) : result unit * State :=
  if (1 <? length agent_responses)%nat then
    match resolve_conflicts E agent_responses (st_calls st) with
    | (Raise e, calls') => (Raise e, with_calls st calls')
    | (Ok resolution_result, calls') =>
        let st := with_calls st calls' in
        match json_get resolution_result "result" with
        | Raise e => (Raise e, st)
        | Ok r =>
            let content := default (JStr "No resolution") r in
            let resolution_db_message :=
              new_message (st_db st) (py_str E content) sid
                          (Some (sa_id manager_agent)) None
                          (Some (msg_id db_message)) None in
            let st := with_db st (add_message resolution_db_message (st_db st)) in
            (Ok tt,
             with_out st
               (broadcast_agent_message session_id
                  (JObj [("id", JInt (msg_id resolution_db_message));
                         ("content", content);
                         ("agent_name", JStr (agent_name manager));
                         ("agent_role", JStr (agent_role manager));
                         ("timestamp",
                          JStr (isoformat E (msg_created_at resolution_db_message)))])
                  active_connections (st_out st)))
        end
    end
  else (Ok tt, st).

(** The branch with a manager: delegation, the assignments in order, the
    synthesis when more than one answered, then one broadcast per answer. *)
Definition delegate_and_run (session_id client_id : string) (sid : Z)
    (db_session : Session) (message : odict json)
    (session_agents : list SessionAgent) (manager_agent : SessionAgent)
    (active_connections : Registry) (st : State) : result unit * State :=
  let available_agents := collect_available (st_db st) session_agents in
  match first (fun a => agent_id_ a =? sa_agent_id manager_agent)
              (agents (st_db st)) with
  | None =>
      (Ok tt, reply_error session_id client_id "Manager agent not found"
                          active_connections st)
  | Some manager =>
      let db_message :=
        new_message (st_db st) (content_of message) sid None
                    (Some (session_owner_id db_session)) None None in
      let st := with_db st (add_message db_message (st_db st)) in
      match run_manager_workflow E (content_of message) available_agents
                                 (st_calls st) with
      | (Raise e, calls') => (Raise e, with_calls st calls')
      | (Ok delegation_result, calls') =>
          let st := with_calls st calls' in
          match json_get delegation_result "assigned_agents" with
          | Raise e => (Raise e, st)
          | Ok assigned =>
              match iter_items (default (JArr []) assigned) with
              | Raise e => (Raise e, st)
              | Ok assignments =>
                  match run_assignments sid session_agents available_agents
                                        db_message assignments st with
                  | (Raise e, st') => (Raise e, st')
                  | (Ok agent_responses, st') =>
                      match resolve_step session_id sid manager_agent manager
                                         db_message agent_responses
                                         active_connections st' with
                      | (Raise e, st'') => (Raise e, st'')
                      | (Ok _, st'') =>
                          (Ok tt,
                           with_out st''
                             (fold_left
                                (fun out response =>
                                   broadcast_agent_message session_id
                                     (JObj response) active_connections out)
                                agent_responses (st_out st'')))
                      end
                  end
              end
          end
      end
  end.

(** The [try] block of [process_user_message]. *)
Definition process_body (session_id client_id : string) (message : odict json)
    (active_connections : Registry) (st : State) : result unit * State :=
  match py_int E session_id with
  | None =>
      (Raise (ValueError (fstr ["invalid literal for int() with base 10: '";
                                session_id; "'"])), st)
  | Some sid =>
      match first (fun s => session_id_ s =? sid) (sessions (st_db st)) with
      | None =>
          (Ok tt, reply_error session_id client_id
                              (fstr ["Session "; session_id; " not found"])
                              active_connections st)
      | Some db_session =>
          let session_agents :=
            List.filter (in_session sid) (session_agents (st_db st)) in
          match session_agents with
          | [] =>
              (Ok tt, reply_error session_id client_id
                                  "No agents in this session"
                                  active_connections st)
          | agent_to_use :: _ =>
              match first sa_is_manager session_agents with
              | None =>
                  single_agent session_id client_id sid db_session message
                               agent_to_use active_connections st
              | Some manager_agent =>
                  delegate_and_run session_id client_id sid db_session message
                                   session_agents manager_agent
                                   active_connections st
              end
          end
      end
  end.

(** [WebSocketManager.process_user_message]: the [try] block, and the
    handler that reports any exception to the sender alone. *)
Definition process_user_message (session_id client_id : string)
    (message : odict json) (active_connections : Registry) (st : State)
    : State :=
  match process_body session_id client_id message active_connections st with
  | (Ok _, st') => st'
  | (Raise e, st') =>
      reply_error session_id client_id
                  (fstr ["Error processing message: "; exn_str e])
                  active_connections st'
  end.

(** One turn of the receive loop of [websocket_endpoint].  The task created
    for a user message is run to its end here. *)
Definition on_receive (session_id client_id : string) (data : odict json)
    (active_connections : Registry) (st : State) : State :=
  let message_type := default (JStr "") (dict_get data "type") in
  if json_eq_str message_type "user_message" then
    process_user_message session_id client_id data active_connections st
  else if json_eq_str message_type "agent_added" then
    with_out st
      (broadcast_notification session_id
         (JObj [("type", JStr "agent_added");
                ("agent_id", default JNull (dict_get data "agent_id"));
                ("agent_name",
                 default (JStr "Unknown Agent") (dict_get data "agent_name"))])
         active_connections (st_out st))
  else
    reply_error session_id client_id
                (fstr ["Unknown message type: "; py_str E message_type])
                active_connections st.

End pipeline.
End server.

(** ** A concrete environment for the examples

    The decoder reads the JSON grammar over ASCII text the way
    [json.loads] does (leading and trailing blanks, the three literals, the
    non-finite number names, strict strings, the last of two equal keys
    wins, a limit on nesting); [\u] escapes are not read.  The other
    services are the simplest that make the examples run. *)

Module fixtures.

Definition is_ws (c : ascii) : bool :=
  let n := nat_of_ascii c in
  (n =? 32)%nat || (n =? 9)%nat || (n =? 10)%nat || (n =? 13)%nat.

Fixpoint skip_ws (cs : list ascii) : list ascii :=
  match cs with
  | c :: cs' => if is_ws c then skip_ws cs' else cs
  | [] => []
  end.

Definition is_digit (c : ascii) : bool :=
  let n := nat_of_ascii c in (48 <=? n)%nat && (n <=? 57)%nat.

Definition digit_val (c : ascii) : Z := Z.of_nat (nat_of_ascii c) - 48.

Fixpoint strip_prefix (p cs : list ascii) : option (list ascii) :=
  match p, cs with
  | [], _ => Some cs
  | a :: p', c :: cs' => if Ascii.eqb a c then strip_prefix p' cs' else None
  | _ :: _, [] => None
  end.

Definition keyword (k : string) (cs : list ascii) : option (list ascii) :=
  strip_prefix (String.list_ascii_of_string k) cs.

(** The longest run of digits at the head. *)
Fixpoint span_digits (cs : list ascii) : list ascii * list ascii :=
  match cs with
  | c :: cs' =>
      if is_digit c then
        let '(ds, rest) := span_digits cs' in (c :: ds, rest)
      else ([], cs)
  | [] => ([], [])
  end.

Definition digits_val (ds : list ascii) : Z :=
  fold_left (fun acc d => 10 * acc + digit_val d) ds 0.

(** A number: sign, integer part without a leading zero, then an optional
    fraction and an optional exponent. *)
Definition scan_number (cs : list ascii) : option (json * list ascii) :=
  let '(neg, cs1) :=
    match cs with
    | "-"%char :: r => (true, r)
    | _ => (false, cs)
    end in
  let '(int_part, cs2) := span_digits cs1 in
  match int_part with
  | [] => None
  | d :: more =>
      let '(int_part, cs2) :=
        if Ascii.eqb d "0" then ([d], (more ++ cs2)%list) else (int_part, cs2) in
      let '(frac, cs3) :=
        match cs2 with
        | "."%char :: r =>
            let '(fd, r') := span_digits r in
            match fd with
            | [] => ([], cs2)
            | _ => ("."%char :: fd, r')
            end
        | _ => ([], cs2)
        end in
      let '(expo, cs4) :=
        match cs3 with
        | e :: r =>
            if Ascii.eqb e "e" || Ascii.eqb e "E" then
              let '(sign, r1) :=
                match r with
                | s :: r1 =>
                    if Ascii.eqb s "+" || Ascii.eqb s "-" then ([s], r1)
                    else ([], r)
                | [] => ([], r)
                end in
              let '(ed, r2) := span_digits r1 in
              match ed with
              | [] => ([], cs3)
              | _ => ((e :: sign ++ ed)%list, r2)
              end
            else ([], cs3)
        | [] => ([], cs3)
        end in
      match frac, expo with
      | [], [] =>
          Some (JInt (if neg then - digits_val int_part else digits_val int_part),
                cs4)
      | _, _ =>
          Some (JFloat (String.string_of_list_ascii
                          ((if neg then ["-"%char] else []) ++ int_part
                           ++ frac ++ expo)%list), cs4)
      end
  end.

(** The body of a string, after its opening quote. *)
Fixpoint scan_string (cs : list ascii) (acc : list ascii)
    : option (string * list ascii) :=
  match cs with
  | [] => None
  | c :: cs' =>
      if (nat_of_ascii c =? 34)%nat then
        Some (String.string_of_list_ascii (rev acc), cs')
      else if (nat_of_ascii c <? 32)%nat then None
      else if (nat_of_ascii c =? 92)%nat then
        match cs' with
        | e :: cs'' =>
            let simple (x : nat) := scan_string cs'' (ascii_of_nat x :: acc) in
            match nat_of_ascii e with
            | 34%nat => simple 34%nat
            | 92%nat => simple 92%nat
            | 47%nat => simple 47%nat
            | 98%nat => simple 8%nat
            | 102%nat => simple 12%nat
            | 110%nat => simple 10%nat
            | 114%nat => simple 13%nat
            | 116%nat => simple 9%nat
            | _ => None
            end
        | [] => None
        end
      else scan_string cs' (c :: acc)
  end.

(** What a scan gives: a value and the text after it, text that is not
    JSON, or a container nested deeper than the interpreter's stack allows. *)
Inductive scan (A : Type) : Type :=
| Scanned (a : A) (rest : list ascii)
| Malformed
| TooDeep (container : string).
Arguments Scanned {A} a rest.
Arguments Malformed {A}.
Arguments TooDeep {A} container.

(** One value, then the elements of an array or the members of an object,
    each call spending one unit of [fuel]; [depth] is the number of
    containers that can still be entered. *)
Fixpoint scan_value (fuel depth : nat) (cs : list ascii) : scan json :=
  match fuel with
  | O => Malformed
  | S fuel =>
      match cs with
      | [] => Malformed
      | c :: cs' =>
          match nat_of_ascii c with
          | 34%nat =>
              match scan_string cs' [] with
              | Some (s, rest) => Scanned (JStr s) rest
              | None => Malformed
              end
          | 123%nat =>
              match depth with
              | O => TooDeep "object"
              | S depth =>
                  match skip_ws cs' with
                  | "}"%char :: rest => Scanned (JObj []) rest
                  | cs'' =>
                      match scan_members fuel depth cs'' [] with
                      | Scanned fields rest => Scanned (JObj fields) rest
                      | Malformed => Malformed
                      | TooDeep container => TooDeep container
                      end
                  end
              end
          | 91%nat =>
              match depth with
              | O => TooDeep "array"
              | S depth =>
                  match skip_ws cs' with
                  | "]"%char :: rest => Scanned (JArr []) rest
                  | cs'' =>
                      match scan_elements fuel depth cs'' with
                      | Scanned items rest => Scanned (JArr items) rest
                      | Malformed => Malformed
                      | TooDeep container => TooDeep container
                      end
                  end
              end
          | _ =>
              match keyword "null" cs, keyword "true" cs, keyword "false" cs with
              | Some rest, _, _ => Scanned JNull rest
              | _, Some rest, _ => Scanned (JBool true) rest
              | _, _, Some rest => Scanned (JBool false) rest
              | _, _, _ =>
                  match keyword "NaN" cs, keyword "Infinity" cs,
                        keyword "-Infinity" cs with
                  | Some rest, _, _ => Scanned (JFloat "nan") rest
                  | _, Some rest, _ => Scanned (JFloat "inf") rest
                  | _, _, Some rest => Scanned (JFloat "-inf") rest
                  | _, _, _ =>
                      match scan_number cs with
                      | Some (v, rest) => Scanned v rest
                      | None => Malformed
                      end
                  end
              end
          end
      end
  end
with scan_elements (fuel depth : nat) (cs : list ascii) : scan (list json) :=
  match fuel with
  | O => Malformed
  | S fuel =>
      match scan_value fuel depth cs with
      | Malformed => Malformed
      | TooDeep container => TooDeep container
      | Scanned v rest =>
          match skip_ws rest with
          | "]"%char :: rest' => Scanned [v] rest'
          | ","%char :: rest' =>
              match scan_elements fuel depth (skip_ws rest') with
              | Scanned vs rest'' => Scanned (v :: vs) rest''
              | Malformed => Malformed
              | TooDeep container => TooDeep container
              end
          | _ => Malformed
          end
      end
  end
with scan_members (fuel depth : nat) (cs : list ascii) (acc : odict json)
    : scan (odict json) :=
  match fuel with
  | O => Malformed
  | S fuel =>
      match cs with
      | q :: cs' =>
          if (nat_of_ascii q =? 34)%nat then
            match scan_string cs' [] with
            | None => Malformed
            | Some (k, rest) =>
                match skip_ws rest with
                | ":"%char :: rest' =>
                    match scan_value fuel depth (skip_ws rest') with
                    | Malformed => Malformed
                    | TooDeep container => TooDeep container
                    | Scanned v rest'' =>
                        let acc' := dict_set acc k v in
                        match skip_ws rest'' with
                        | "}"%char :: r => Scanned acc' r
                        | ","%char :: r =>
                            scan_members fuel depth (skip_ws r) acc'
                        | _ => Malformed
                        end
                    end
                | _ => Malformed
                end
            end
          else Malformed
      | [] => Malformed
      end
  end.

(** The interpreter's default limit on nested calls; the scanner spends
    one call per container it enters, so no call site can decode text
    nested that deep. *)
Definition recursion_limit : nat := 1000.

(** [json.loads] on ASCII text.  The message of a decode error, which no
    caller reads, is not reproduced. *)
Definition loads (s : string) : result json :=
  let cs := String.list_ascii_of_string s in
  match scan_value (2 * length cs + 2) (recursion_limit - 1) (skip_ws cs) with
  | Scanned v rest =>
      match skip_ws rest with
      | [] => Ok v
      | _ => Raise (JSONDecodeError "Extra data")
      end
  | Malformed => Raise (JSONDecodeError "Expecting value")
  | TooDeep container =>
      Raise (RecursionError
               (fstr ["maximum recursion depth exceeded while decoding a JSON ";
                      container; " from a unicode string"]))
  end.

(** [int] on decimal text with an optional sign. *)
Definition int_of_text (s : string) : option Z :=
  let cs := String.list_ascii_of_string s in
  let '(neg, ds) :=
    match cs with
    | "-"%char :: r => (true, r)
    | "+"%char :: r => (false, r)
    | _ => (false, cs)
    end in
  match ds with
  | [] => None
  | _ =>
      if forallb is_digit ds
      then Some (if neg then - digits_val ds else digits_val ds)
      else None
  end.

(** An engine that behaves as SQLite does when foreign keys are not switched
    on: a dangling key is stored when it fits 64 bits, a negative [LIMIT]
    is no limit and a negative [OFFSET] is zero. *)
Definition too_large : exn :=
  OverflowError "Python int too large to convert to SQLite INTEGER".

Definition sqlite : Engine :=
  {| dangling_key := fun p => if fits_int64 p then None else Some too_large;
     odd_window := fun skip limit =>
       if fits_int64 skip && fits_int64 limit then
         Ok (Z.to_nat skip, if limit <? 0 then None else Some (Z.to_nat limit))
       else Raise too_large |}.

(** An environment whose generation service answers the [n]-th call with
    [answers n]. *)
Definition env (answers : nat -> result string) : Env :=
  {| arun := fun n _ => answers n;
     json_loads := loads;
     json_dumps := fun _ => "[]";
     py_repr := fun _ => "<object>";
     isoformat := str_of_int;
     py_int := int_of_text |}.

End fixtures.

(** ** Notions used in the statements *)

Module notions.

Import conflict_resolution server.

(** The websocket registered for a (session, client) pair. *)
Definition lookup_conn (reg : Registry) (session_id client_id : string)
    : option WebSocket :=
  reg !! session_id ≫= fun conns => conns !! client_id.

(** The manager memberships of a session. *)
Definition managers_of (session_id : Z) (db : DB) : list SessionAgent :=
  List.filter (manager_in_session session_id) (session_agents db).

(** At most one manager membership in every session. *)
Definition at_most_one_manager (db : DB) : Prop :=
  ∀ session_id, (length (managers_of session_id db) ≤ 1)%nat.

(** A run of [add_agent_to_session] requests (session, agent, manager flag,
    caller), each on the tables the one before left. *)
Fixpoint run_adds (requests : list (Z * Z * bool * Z)) (db : DB) : DB :=
  match requests with
  | [] => db
  | (session_id, agent_id, is_manager, current_user) :: rest =>
      run_adds rest
        (snd (sandbox.add_agent_to_session session_id agent_id is_manager db
                current_user))
  end.

(** The session filter of the sandbox routes. *)
Definition owned_by (session_id current_user : Z) (s : Session) : bool :=
  (session_id_ s =? session_id) && (session_owner_id s =? current_user).

(** The message announcing the winner of a completed vote. *)
Definition announcement (row : ConflictResolution)
    (session_agent : SessionAgent) (votes : odict string) (db : DB) : Message :=
  new_message db
    (fstr ["Conflict resolved by voting. The winning option is: ";
           str_of_option (winning_option votes)])
    (cr_session_id row)
    (Some (sa_id (default session_agent
                    (first (manager_in_session (cr_session_id row))
                           (session_agents db)))))
    None
    (match first (λ m, msg_id m =? cr_conflict_message_id row) (messages db) with
     | Some m => msg_parent_id m
     | None => None
     end)
    (Some CONFLICT_RESOLUTION).

(** The [resolution_data] of the row a route returned. *)
Definition returned_data (r : result ConflictResolution)
    : option ResolutionData :=
  match r with
  | Ok row => Some (cr_resolution_data row)
  | Raise _ => None
  end.

(** [r.get(k)] on what a call returned. *)
Definition field_of (r : result json) (k : string) : result (option json) :=
  match r with
  | Ok j => json_get j k
  | Raise e => Raise e
  end.

(** A plan without assignments: the key is missing or holds an empty list. *)
Definition no_assignments (plan : json) : Prop :=
  json_get plan "assigned_agents" = Ok None
  ∨ json_get plan "assigned_agents" = Ok (Some (JArr [])).

Section with_env.
Variable E : Env.

(** The call [resolve_conflicts] makes into the generation service. *)
Definition synthesis_call (responses : list (odict json)) (calls : Calls)
    : result string * Calls :=
  generate_response E "Resolve the conflicts between these agent responses."
                    (Some (synthesis_instructions E responses)) calls.

(** The user's message as [process_user_message] stores it. *)
Definition user_row (st : State) (message : odict json) (sid : Z)
    (db_session : Session) : Message :=
  new_message (st_db st) (content_of E message) sid None
              (Some (session_owner_id db_session)) None None.

End with_env.

End notions.
Export notions.

(** ** Sample data for the examples *)

Module scenario.

(** The caller of every route below. *)
Definition owner : Z := 7.

Definition agent (id : Z) (name role : string) : Agent :=
  {| agent_id_ := id; agent_name := name; agent_role := role;
     agent_personality := "calm"; agent_system_instructions := "Be brief.";
     agent_examples := JArr []; agent_owner_id := owner |}.

Definition session (id : Z) (name : string) : Session :=
  {| session_id_ := id; session_name := name; session_description := None;
     session_owner_id := owner; session_is_active := true |}.

Definition user_message (id session_id : Z) (content : string) : Message :=
  {| msg_id := id; msg_content := content; msg_session_id := session_id;
     msg_session_agent_id := None; msg_user_id := Some owner;
     msg_parent_id := None; msg_message_type := None; msg_created_at := 0 |}.

(** Two sessions of one owner, three agents, no membership yet; message 10
    belongs to session 2 and message 11 to session 1. *)
Definition base_db : DB :=
  {| agents := [agent 3 "Max" "Manager"; agent 4 "Ann" "Writer";
                agent 5 "Bob" "Coder"];
     sessions := [session 1 "alpha"; session 2 "beta"];
     session_agents := [];
     messages := [user_message 10 2 "beta question";
                  user_message 11 1 "alpha question"];
     conflict_resolutions := [];
     now := 0;
     engine := fixtures.sqlite |}.

Definition join (session_id agent_id : Z) (is_manager : bool) (db : DB) : DB :=
  snd (sandbox.add_agent_to_session session_id agent_id is_manager db owner).

(** Session 1 with Ann and Bob as plain members (memberships 1 and 2). *)
Definition two_members : DB := join 1 5 false (join 1 4 false base_db).

(** Session 1 with Max as manager and Ann as member (memberships 1 and 2). *)
Definition with_manager : DB := join 1 4 false (join 1 3 true base_db).

(** Session 1 with Ann alone (membership 1). *)
Definition one_member : DB := join 1 4 false base_db.

(** A generation service that answers every call with the same text. *)
Definition always (answer : string) : Env :=
  fixtures.env (fun _ => Ok answer).

(** A resolution of message 11 in session 1 by the given method. *)
Definition request (method : string) : ConflictResolutionCreate :=
  {| crc_session_id := 1; crc_conflict_message_id := 11;
     crc_resolution_method := method;
     crc_resolution_data := [("options", JArr [JStr "opt1"; JStr "opt2"])];
     crc_resolved_by_agent_id := None |}.

Definition open_voting (db : DB) : DB :=
  snd (fst (conflict_resolution.create_conflict_resolution
              (always "ok") (request "voting") db owner [])).

Definition ballot (agent_id : Z) (vote : string)
    : conflict_resolution.VoteData :=
  {| conflict_resolution.vd_agent_id := Some agent_id;
     conflict_resolution.vd_vote := Some vote |}.

(** Resolution 1 is opened with Ann and Bob in the session; Ann votes
    "opt1", then votes again "opt2". *)
Definition revote_first : result ConflictResolution * DB :=
  conflict_resolution.submit_vote 1 (ballot 1 "opt1") (open_voting two_members)
                                  owner.
Definition revote_second : result ConflictResolution * DB :=
  conflict_resolution.submit_vote 1 (ballot 1 "opt2") (snd revote_first) owner.
(** Then Bob votes "opt1". *)
Definition revote_third : result ConflictResolution * DB :=
  conflict_resolution.submit_vote 1 (ballot 2 "opt1") (snd revote_second) owner.

(** Resolution 1 is opened with Ann alone in the session, and Ann votes. *)
Definition early_vote : result ConflictResolution * DB :=
  conflict_resolution.submit_vote 1 (ballot 1 "opt1") (open_voting one_member)
                                  owner.

(** Resolution 1 is opened with Ann alone in the session; Bob joins
    afterwards; then Ann votes. *)
Definition late_joiner : DB := join 1 5 false (open_voting one_member).
Definition late_vote : result ConflictResolution * DB :=
  conflict_resolution.submit_vote 1 (ballot 1 "opt1") late_joiner owner.

(** The reply posted into session 1 under message 10 of session 2. *)
Definition cross_reply : MessageCreate :=
  {| mc_content := "reply"; mc_session_id := 1; mc_session_agent_id := None;
     mc_user_id := None; mc_parent_id := Some 10 |}.

(** An answer in prose, which is not JSON. *)
Definition prose : string := "Ann should write it and Bob should review.".

(** An answer that is JSON and no plan: an object with a thought alone. *)
Definition thought_only : string :=
  fstr ["{"; dq; "thought"; dq; ": "; dq; "Ann should write it"; dq; "}"].

(** An answer of a thousand opening brackets. *)
Definition deep_nesting : string := fstr (replicate 1000 "[").

Definition roster : list AgentData :=
  map server.agent_data_of (agents base_db).

Definition two_answers : list (odict json) :=
  [[("content", JStr "Roses are red"); ("agent_name", JStr "Ann")];
   [("content", JStr "Violets are blue"); ("agent_name", JStr "Bob")]].

(** Session "s" with two live connections: websocket 0 under client id "a"
    and websocket 1 under client id "b". *)
Definition two_clients : Registry :=
  connection.connect 1%nat "s" "b" (connection.connect 0%nat "s" "a" ∅).

(** The user text sent over session 1's socket. *)
Definition poem_request : odict json :=
  [("type", JStr "user_message"); ("content", JStr "Write a poem")].

Definition start (db : DB) : server.State :=
  {| server.st_db := db; server.st_calls := []; server.st_out := ∅ |}.

(** One live connection in session "1". *)
Definition one_client : Registry := connection.connect 0%nat "1" "c" ∅.

(** The membership rows of the sample sessions. *)
Definition max_membership : SessionAgent :=
  {| sa_id := 1; sa_session_id := 1; sa_agent_id := 3; sa_is_manager := true |}.
Definition ann_membership (id : Z) : SessionAgent :=
  {| sa_id := id; sa_session_id := 1; sa_agent_id := 4; sa_is_manager := false |}.
Definition bob_membership (id : Z) : SessionAgent :=
  {| sa_id := id; sa_session_id := 1; sa_agent_id := 5; sa_is_manager := false |}.

End scenario.

(** ** sandbox.py: the session routes *)

Module sandbox_sessions.

(** [schemas.SessionCreate] *)
Record SessionCreate := {
  sc_name : string;
  sc_description : option string }.

Definition add_session (s : Session) (db : DB) : DB :=
  {| agents := agents db; sessions := (sessions db ++ [s])%list;
     session_agents := session_agents db;
     messages := messages db;
     conflict_resolutions := conflict_resolutions db; now := now db;
     engine := engine db |}.

(** [start_sandbox] *)
Definition start_sandbox (session_data : SessionCreate) (db : DB)
    (current_user : Z) : Session * DB :=
  let db_session :=
    {| session_id_ := next_id (map session_id_ (sessions db));
       session_name := sc_name session_data;
       session_description := sc_description session_data;
       session_owner_id := current_user;
       session_is_active := true |} in
  (db_session, add_session db_session db).

(** The values of [skip] and [limit] that every engine reads alike. *)
Definition plain_window (skip limit : Z) : bool :=
  (0 <=? skip) && fits_int64 skip && (0 <=? limit) && fits_int64 limit.

(** [get_sessions]: the caller's sessions through
    [.offset(skip).limit(limit)].  Both are query parameters of type [int]
    that the route does not validate. *)
Definition get_sessions (skip limit : Z) (db : DB) (current_user : Z)
    : result (list Session) :=
  let owned :=
    List.filter (fun s => session_owner_id s =? current_user) (sessions db) in
  if plain_window skip limit then
    Ok (take (Z.to_nat limit) (drop (Z.to_nat skip) owned))
  else
    match odd_window (engine db) skip limit with
    | Raise e => Raise e
    | Ok (offset, Some n) => Ok (take n (drop offset owned))
    | Ok (offset, None) => Ok (drop offset owned)
    end.

(** [get_session] *)
Definition get_session (session_id : Z) (db : DB) (current_user : Z)
    : result Session :=
  match first (fun s => (session_id_ s =? session_id)
                        && (session_owner_id s =? current_user)) (sessions db) with
  | None => Raise (HTTPException 404 "Session not found")
  | Some session => Ok session
  end.

End sandbox_sessions.

(** ** Notions used in the further properties *)

Module more_notions.

Import conflict_resolution server.

(** No session of the registry is left without connections. *)
Definition no_empty_sessions (reg : Registry) : Prop :=
  ∀ session_id, reg !! session_id ≠ Some ∅.

(** What a client can do to the registry. *)
Inductive registry_op :=
| Connect (websocket : WebSocket) (session_id client_id : string)
| Disconnect (session_id client_id : string).

Fixpoint run_registry (ops : list registry_op) (reg : Registry) : Registry :=
  match ops with
  | [] => reg
  | Connect ws sid cid :: rest =>
      run_registry rest (connection.connect ws sid cid reg)
  | Disconnect sid cid :: rest =>
      run_registry rest (connection.disconnect sid cid reg)
  end.

(** How many client ids of a session are bound to a websocket. *)
Definition bindings (conns : gmap string WebSocket) (ws : WebSocket) : nat :=
  size (filter (λ kv : string * WebSocket, kv.2 = ws) conns).

(** No two memberships share a key, and none repeats a (session, agent)
    pair. *)
Definition memberships_distinct (db : DB) : Prop :=
  NoDup (map sa_id (session_agents db))
  ∧ NoDup (map (λ sa, (sa_session_id sa, sa_agent_id sa)) (session_agents db)).

(** Every reply is younger than the message it answers. *)
Definition parents_older (db : DB) : Prop :=
  ∀ m p, m ∈ messages db → msg_parent_id m = Some p → p < msg_id m.

(** The number of ballots cast for an option. *)
Definition ballots_for (option : string) (votes : odict string) : Z :=
  Z.of_nat (length (List.filter (String.eqb option) (dict_values votes))).

(** A reply stored under a user message: same session, that parent, and an
    authoring membership. *)
Definition threaded_under (user reply : Message) : Prop :=
  msg_parent_id reply = Some (msg_id user)
  ∧ msg_session_id reply = msg_session_id user
  ∧ is_Some (msg_session_agent_id reply).

(** The second database is the first with some messages appended and
    nothing else changed. *)
Definition grows_by (db db' : DB) (new : list Message) : Prop :=
  agents db' = agents db
  ∧ sessions db' = sessions db
  ∧ session_agents db' = session_agents db
  ∧ conflict_resolutions db' = conflict_resolutions db
  ∧ messages db' = (messages db ++ new)%list.

(** What a run of the pipeline may add: nothing, or the user's message
    followed by replies threaded under it. *)
Definition one_thread (sid : Z) (content : string) (new : list Message)
    : Prop :=
  new = []
  ∨ ∃ user replies,
      new = user :: replies
      ∧ msg_parent_id user = None
      ∧ msg_session_agent_id user = None
      ∧ msg_session_id user = sid
      ∧ msg_content user = content
      ∧ Forall (threaded_under user) replies.

(** The two loops of [submit_vote], step by step. *)
Definition count_step (vote_counts : odict Z) (v : string) : odict Z :=
  dict_set vote_counts v (default 0 (dict_get vote_counts v) + 1).

Definition winner_step (best : Z * option string) (entry : string * Z)
    : Z * option string :=
  let '(max_votes, winning) := best in
  let '(option, n) := entry in
  if n >? max_votes then (n, Some option) else (max_votes, winning).

(** How often a label occurs in a list of votes. *)
Definition occurrences (option : string) (l : list string) : Z :=
  Z.of_nat (length (List.filter (String.eqb option) l)).

End more_notions.
Export more_notions.

(** * Properties *)

(** ** The registry of live connections *)

Section registry.
Implicit Types (reg : Registry) (conns : gmap string WebSocket).

Lemma connect_insert (ws : WebSocket) (sid cid : string) reg :
  connection.connect ws sid cid reg
  = <[sid := <[cid := ws]> (default ∅ (reg !! sid))]> reg.
Proof.
  unfold connection.connect.
  destruct (reg !! sid) as [conns|] eqn:Hsid; simpl.
  - apply map_eq. intros k. destruct (decide (sid = k)) as [<-|Hne].
    + by rewrite lookup_alter_eq, Hsid, lookup_insert_eq.
    + by rewrite lookup_alter_ne, lookup_insert_ne.
  - by rewrite alter_insert_eq.
Qed.

Lemma server_connect_registry (ws : WebSocket) (sid cid : string) reg out :
  fst (server.connect ws sid cid reg out) = connection.connect ws sid cid reg.
Proof. reflexivity. Qed.

Lemma connect_overwrites (ws1 ws2 : WebSocket) (sid cid : string) reg :
  connection.connect ws2 sid cid (connection.connect ws1 sid cid reg)
  = connection.connect ws2 sid cid reg.
Proof.
  rewrite (connect_insert ws2 sid cid (connection.connect _ _ _ _)).
  rewrite (connect_insert ws1), (connect_insert ws2).
  rewrite lookup_insert_eq. simpl.
  by rewrite !insert_insert_eq.
Qed.

Lemma connect_lookup (ws : WebSocket) (sid cid : string) reg :
  lookup_conn (connection.connect ws sid cid reg) sid cid = Some ws.
Proof.
  unfold lookup_conn. rewrite connect_insert, lookup_insert_eq. simpl.
  by rewrite lookup_insert_eq.
Qed.

(** C9.  Registering the same (session id, client id) pair twice leaves the
    registry exactly as one registration does: the pair is bound to the
    websocket, it is the only entry of its session under that client id,
    and every other pair is bound as before the two calls.  This holds for
    [ConnectionManager.connect] and for the registry kept by
    [WebSocketManager.connect], whatever was sent in between. *)
Theorem register_idempotent (ws : WebSocket) (sid cid : string) reg
    (out out' : Outboxes) :
  let once := connection.connect ws sid cid reg in
  let twice := connection.connect ws sid cid once in
  let once' := fst (server.connect ws sid cid reg out) in
  let twice' := fst (server.connect ws sid cid once' out') in
  let registered_once (r : Registry) :=
    lookup_conn r sid cid = Some ws
    ∧ size (filter (λ kv, kv.1 = cid) (default ∅ (r !! sid))) = 1%nat
    ∧ ∀ sid' cid', (sid', cid') ≠ (sid, cid) →
        lookup_conn r sid' cid' = lookup_conn reg sid' cid' in
  (twice = once ∧ registered_once twice)
  ∧ (twice' = once' ∧ registered_once twice').
Proof.
  cbv zeta. rewrite !server_connect_registry, connect_overwrites.
  assert (lookup_conn (connection.connect ws sid cid reg) sid cid = Some ws
          ∧ size (filter (λ kv : string * WebSocket, kv.1 = cid)
                    (default ∅ (connection.connect ws sid cid reg !! sid)))
            = 1%nat
          ∧ ∀ sid' cid', (sid', cid') ≠ (sid, cid) →
              lookup_conn (connection.connect ws sid cid reg) sid' cid'
              = lookup_conn reg sid' cid') as Hone.
  { split; [apply connect_lookup|]. split.
    - rewrite connect_insert, lookup_insert_eq. simpl.
      set (c := default ∅ (reg !! sid)).
      assert (filter (λ kv : string * WebSocket, kv.1 = cid) (<[cid:=ws]> c)
              = {[cid := ws]}) as ->.
      { apply map_eq. intros k. apply option_eq. intros w.
        rewrite map_lookup_filter_Some, lookup_singleton_Some. simpl.
        split.
        - intros [Hk ->]. rewrite lookup_insert_eq in Hk. by injection Hk as ->.
        - intros [<- <-]. by rewrite lookup_insert_eq. }
      apply map_size_singleton.
    - intros sid' cid' Hne. unfold lookup_conn. rewrite connect_insert.
      destruct (decide (sid = sid')) as [<-|Hs].
      + rewrite lookup_insert_eq. simpl.
        rewrite lookup_insert_ne by congruence.
        by destruct (reg !! sid).
      + by rewrite lookup_insert_ne. }
  done.
Qed.

End registry.

(** ** Session membership and message append (sandbox.py) *)

Section membership.

Lemma find_none_filter {A} (p : A → bool) (l : list A) :
  List.find p l = None → List.filter p l = [].
Proof.
  induction l as [|x l IH]; simpl; [done|].
  destruct (p x); [done|]. exact IH.
Qed.

Lemma filter_nonempty_find {A} (p : A → bool) (l : list A) :
  List.filter p l ≠ [] → is_Some (List.find p l).
Proof.
  destruct (List.find p l) eqn:H; [eauto|].
  intros Hne. by apply find_none_filter in H.
Qed.

Lemma managers_of_add (sa : SessionAgent) (session_id : Z) (db : DB) :
  managers_of session_id (add_session_agent sa db)
  = (managers_of session_id db
     ++ if manager_in_session session_id sa then [sa] else [])%list.
Proof.
  unfold managers_of. simpl. rewrite List.filter_app. simpl.
  by destruct (manager_in_session session_id sa).
Qed.

(** Every outcome of [add_agent_to_session], in source order. *)
Lemma add_agent_cases (session_id agent_id : Z) (is_manager : bool)
    (db : DB) (current_user : Z) :
  (∃ e, sandbox.add_agent_to_session session_id agent_id is_manager db
          current_user = (Raise e, db))
  ∨ ((is_manager = true → managers_of session_id db = [])
     ∧ sandbox.add_agent_to_session session_id agent_id is_manager db
         current_user
       = (Ok (JObj [("status", JStr "success");
                    ("message", JStr "Agent added to session")]),
          add_session_agent
            {| sa_id := next_id (map sa_id (session_agents db));
               sa_session_id := session_id;
               sa_agent_id := agent_id;
               sa_is_manager := is_manager |} db)).
Proof.
  unfold sandbox.add_agent_to_session.
  destruct (first _ (sessions db)); [|eauto].
  destruct (first _ (agents db)); [|eauto].
  destruct (first _ (session_agents db)); [eauto|].
  destruct is_manager; simpl.
  - destruct (first (manager_in_session session_id) (session_agents db))
      as [m|] eqn:Hm.
    + rewrite bool_decide_eq_true_2 by eauto. eauto.
    + rewrite bool_decide_eq_false_2 by (intros [? ?]; done).
      right. split; [|done]. intros _. by apply find_none_filter.
  - right. split; [done|done].
Qed.

Lemma add_agent_preserves (session_id agent_id : Z) (is_manager : bool)
    (db : DB) (current_user : Z) :
  at_most_one_manager db →
  at_most_one_manager
    (snd (sandbox.add_agent_to_session session_id agent_id is_manager db
            current_user)).
Proof.
  intros Hinv.
  destruct (add_agent_cases session_id agent_id is_manager db current_user)
    as [[e ->]|[Hfree ->]]; simpl; [done|].
  intros sid. rewrite managers_of_add. rewrite length_app.
  unfold manager_in_session at 1. simpl.
  destruct (Z.eqb_spec session_id sid) as [->|Hne]; simpl.
  - destruct is_manager; simpl.
    + rewrite Hfree by done. simpl. lia.
    + specialize (Hinv sid). lia.
  - specialize (Hinv sid). lia.
Qed.

(** From tables without memberships, no run of add requests ever gives a
    session two managers. *)
Lemma single_manager_reachable (requests : list (Z * Z * bool * Z)) (db : DB) :
  session_agents db = [] → at_most_one_manager (run_adds requests db).
Proof.
  intros Hempty.
  assert (at_most_one_manager db) as Hinv.
  { intros sid. unfold managers_of. rewrite Hempty. simpl. lia. }
  clear Hempty. revert db Hinv.
  induction requests as [|[[[sid aid] m] u] rest IH]; intros db Hinv; simpl.
  - exact Hinv.
  - apply IH. by apply add_agent_preserves.
Qed.

(** C6.  A session holds at most one manager membership, and every call of
    [add_agent_to_session] keeps it so.  Adding a manager to a session that
    has one is refused and leaves the tables as they were; when the request
    passes the three earlier checks (session owned by the caller, agent
    owned by the caller, agent not yet a member) the refusal is the status
    400 "Session already has a manager agent". *)
Theorem add_agent_keeps_single_manager (session_id agent_id : Z)
    (is_manager : bool) (db : DB) (current_user : Z) :
  at_most_one_manager db →
  at_most_one_manager
    (snd (sandbox.add_agent_to_session session_id agent_id is_manager db
            current_user))
  ∧ (managers_of session_id db ≠ [] →
     (∃ e, sandbox.add_agent_to_session session_id agent_id true db
             current_user = (Raise e, db))
     ∧ (is_Some (first (λ s, (session_id_ s =? session_id)
                             && (session_owner_id s =? current_user))
                       (sessions db)) →
        is_Some (first (λ a, (agent_id_ a =? agent_id)
                             && (agent_owner_id a =? current_user))
                       (agents db)) →
        first (λ sa, (sa_session_id sa =? session_id)
                     && (sa_agent_id sa =? agent_id)) (session_agents db)
        = None →
        sandbox.add_agent_to_session session_id agent_id true db current_user
        = (Raise (HTTPException 400 "Session already has a manager agent"),
           db))).
Proof.
  intros Hinv. split.
  - by apply add_agent_preserves.
  - intros Hmgr. split.
    + destruct (add_agent_cases session_id agent_id true db current_user)
        as [?|[Hfree _]]; [done|]. by destruct Hmgr; apply Hfree.
    + intros [s Hs] [a Ha] Hnew. unfold sandbox.add_agent_to_session.
      rewrite Hs, Ha, Hnew. simpl.
      by rewrite bool_decide_eq_true_2 by (by apply filter_nonempty_find).
Qed.

End membership.

Section append.

Lemma stored_parent_accepted (db : DB) (parent_id : option Z) :
  (∀ p, parent_id = Some p → p ∈ map msg_id (messages db)) →
  refused_parent db parent_id = None.
Proof.
  intros Hstored. destruct parent_id as [p|]; simpl; [|done].
  by rewrite bool_decide_eq_true_2 by (by apply Hstored).
Qed.

Lemma send_message_unknown_session (session_id : Z) (message : MessageCreate)
    (db : DB) (current_user : Z) :
  first (owned_by session_id current_user) (sessions db) = None →
  sandbox.send_message session_id message db current_user
  = (Raise (HTTPException 404 "Session not found"), db).
Proof. unfold sandbox.send_message, owned_by. by intros ->. Qed.

(** C5, as the code has it.  [send_message] looks at the session only and
    never at the parent's session: for a session owned by the caller and a
    posted parent id that is absent or the key of a stored message, of
    whichever session, it stores one new message carrying that parent id
    unchanged and returns it. *)
Theorem send_message_keeps_posted_parent (session_id : Z)
    (message : MessageCreate) (db : DB) (current_user : Z) :
  is_Some (first (owned_by session_id current_user) (sessions db)) →
  (∀ p, mc_parent_id message = Some p → p ∈ map msg_id (messages db)) →
  ∃ m, sandbox.send_message session_id message db current_user
       = (Ok m, add_message m db)
     ∧ msg_session_id m = session_id
     ∧ msg_parent_id m = mc_parent_id message
     ∧ msg_content m = mc_content message
     ∧ messages (add_message m db) = (messages db ++ [m])%list.
Proof.
  intros [s Hs] Hstored. unfold sandbox.send_message. unfold owned_by in Hs.
  rewrite Hs, (stored_parent_accepted _ _ Hstored).
  eexists. split; [reflexivity|]. by simpl.
Qed.

Lemma send_message_keeps_posted_parent_witness :
  ∃ m, sandbox.send_message 1 scenario.cross_reply scenario.base_db scenario.owner
       = (Ok m, add_message m scenario.base_db)
     ∧ msg_session_id m = 1
     ∧ msg_parent_id m = Some 10
     ∧ msg_content m = "reply"
     ∧ messages (add_message m scenario.base_db)
       = (messages scenario.base_db ++ [m])%list.
Proof.
  apply (send_message_keeps_posted_parent 1 scenario.cross_reply scenario.base_db
           scenario.owner).
  - vm_compute. eauto.
  - intros p [= <-]. apply (bool_decide_unpack _). vm_compute. exact I.
Defined.

(** C5, the claim as stated fails: a reply into session 1 whose parent is
    message 10 of session 2 is accepted and stored with that parent. *)
Lemma cross_session_parent_is_stored :
  (∃ p, first (λ m, msg_id m =? 10) (messages scenario.base_db) = Some p
        ∧ msg_session_id p = 2)
  ∧ ∃ m, sandbox.send_message 1 scenario.cross_reply scenario.base_db scenario.owner
         = (Ok m, add_message m scenario.base_db)
       ∧ msg_id m = 12
       ∧ msg_session_id m = 1
       ∧ msg_parent_id m = Some 10.
Proof.
  split.
  - eexists. split; [reflexivity|reflexivity].
  - eexists. split; [reflexivity|]. by vm_compute.
Qed.

(** A parent id that no stored message has is left to the engine: the
    sample engine stores it when it fits 64 bits and refuses it when it
    does not. *)
Example dangling_parent_is_the_engines :
  let post (p : Z) :=
    {| mc_content := "reply"; mc_session_id := 1; mc_session_agent_id := None;
       mc_user_id := None; mc_parent_id := Some p |} in
  is_ok (fst (sandbox.send_message 1 (post 999) scenario.base_db
                scenario.owner)) = true
  ∧ sandbox.send_message 1 (post (2 ^ 63)) scenario.base_db scenario.owner
    = (Raise fixtures.too_large, scenario.base_db).
Proof. split; reflexivity. Qed.

End append.

Section membership_example.

Lemma with_manager_single : at_most_one_manager scenario.with_manager.
Proof.
  intros sid. unfold managers_of.
  set (l := session_agents scenario.with_manager). vm_compute in l. subst l.
  unfold manager_in_session. cbn -[Z.eqb].
  destruct (1 =? sid); simpl; lia.
Qed.

(** Bob asks to manage session 1, which Max already manages. *)
Lemma add_agent_keeps_single_manager_witness :
  at_most_one_manager
    (snd (sandbox.add_agent_to_session 1 5 true scenario.with_manager
            scenario.owner))
  ∧ sandbox.add_agent_to_session 1 5 true scenario.with_manager scenario.owner
    = (Raise (HTTPException 400 "Session already has a manager agent"),
       scenario.with_manager).
Proof.
  destruct (add_agent_keeps_single_manager 1 5 true scenario.with_manager
              scenario.owner with_manager_single) as [Hkeep Hrefuse].
  split; [exact Hkeep|].
  apply Hrefuse.
  - vm_compute. discriminate.
  - vm_compute. eauto.
  - vm_compute. eauto.
  - vm_compute. reflexivity.
Defined.

End membership_example.

(** ** Conflict resolution (conflict_resolution.py) *)

Section resolution.
Variable E : Env.

Import conflict_resolution.


(** What [submit_vote] does with a vote that passes every check: the
    stored tally plus one is compared with the number of memberships the
    session has now; short of it, the stored row is returned and nothing
    is written. *)
Lemma submit_vote_accepted (conflict_resolution_id : Z) (vote_data : VoteData)
    (db : DB) (current_user : Z) (row : ConflictResolution)
    (session : Session) (agent_id : Z) (vote : string)
    (session_agent : SessionAgent) (votes : odict string) (total_votes : Z)
    (options : json) :
  first (λ c, cr_id c =? conflict_resolution_id) (conflict_resolutions db)
  = Some row →
  first (λ s, session_id_ s =? cr_session_id row) (sessions db) = Some session →
  session_owner_id session = current_user →
  cr_resolution_method row = "voting" →
  cr_resolution_data row = VotingData votes total_votes options "in_progress" →
  vd_agent_id vote_data = Some agent_id →
  agent_id ≠ 0 →
  vd_vote vote_data = Some vote →
  first (λ sa, (sa_id sa =? agent_id) && (sa_session_id sa =? cr_session_id row))
        (session_agents db) = Some session_agent →
  submit_vote conflict_resolution_id vote_data db current_user
  = let votes' := dict_set votes (str_of_int agent_id) vote in
    if total_votes + 1 >=? count (in_session (cr_session_id row))
                                 (session_agents db)
    then announce_result row session_agent votes' db
    else (Ok row, db).
Proof.
  intros Hrow Hs Howner Hmethod Hdata Hagent Hnz Hvote Hsa.
  unfold submit_vote.
  rewrite Hrow, Hs, Howner, Z.eqb_refl, Hmethod, Hdata. simpl.
  rewrite Hagent, Hvote.
  destruct (Z.eqb_spec agent_id 0) as [?|_]; [done|].
  by rewrite Hsa.
Qed.

(** A key reads back what was last written under it. *)
Lemma dict_get_set {V} (d : odict V) (k : string) (v : V) :
  dict_get (dict_set d k v) k = Some v.
Proof.
  induction d as [|[k' v'] d IH]; simpl.
  - by rewrite String.eqb_refl.
  - destruct (String.eqb k' k) eqn:Hk; simpl.
    + by rewrite String.eqb_refl.
    + by rewrite Hk.
Qed.

Lemma announce_result_messages (row : ConflictResolution)
    (session_agent : SessionAgent) (votes : odict string) (db : DB) :
  messages (snd (announce_result row session_agent votes db))
  = (messages db ++ [announcement row session_agent votes db])%list.
Proof. reflexivity. Qed.

(** C2, as the code has it.  The number a vote's tally is compared with is
    the count of the session's memberships in the database at the time of
    that vote: a vote that passes the checks announces a winner exactly
    when the stored tally plus one reaches that count (the route then ends
    at the unbound name [func]); short of that count the vote is accepted,
    nothing is announced and the resolution is returned as it is stored. *)
Theorem voting_denominator_is_current_count (conflict_resolution_id : Z)
    (vote_data : VoteData) (db : DB) (current_user : Z)
    (row : ConflictResolution) (session : Session) (agent_id : Z)
    (vote : string) (session_agent : SessionAgent) (votes : odict string)
    (total_votes : Z) (options : json) :
  first (λ c, cr_id c =? conflict_resolution_id) (conflict_resolutions db)
  = Some row →
  first (λ s, session_id_ s =? cr_session_id row) (sessions db) = Some session →
  session_owner_id session = current_user →
  cr_resolution_method row = "voting" →
  cr_resolution_data row = VotingData votes total_votes options "in_progress" →
  vd_agent_id vote_data = Some agent_id →
  agent_id ≠ 0 →
  vd_vote vote_data = Some vote →
  first (λ sa, (sa_id sa =? agent_id) && (sa_session_id sa =? cr_session_id row))
        (session_agents db) = Some session_agent →
  let votes' := dict_set votes (str_of_int agent_id) vote in
  let members_now :=
    count (in_session (cr_session_id row)) (session_agents db) in
  let outcome := submit_vote conflict_resolution_id vote_data db current_user in
  (members_now ≤ total_votes + 1 →
     fst outcome = Raise (NameError "func")
     ∧ messages (snd outcome)
       = (messages db ++ [announcement row session_agent votes' db])%list
     ∧ conflict_resolutions (snd outcome) = conflict_resolutions db)
  ∧ (total_votes + 1 < members_now → outcome = (Ok row, db)).
Proof.
  intros Hrow Hs Howner Hmethod Hdata Hagent Hnz Hvote Hsa votes' n outcome.
  subst outcome.
  rewrite (submit_vote_accepted _ _ _ _ _ _ _ _ _ _ _ _
             Hrow Hs Howner Hmethod Hdata Hagent Hnz Hvote Hsa).
  cbv zeta. fold votes' n. split; intros Hn.
  - replace (total_votes + 1 >=? n) with true by (symmetry; lia).
    split; [reflexivity|]. split; [apply announce_result_messages|reflexivity].
  - replace (total_votes + 1 >=? n) with false by (symmetry; lia).
    reflexivity.
Qed.

End resolution.

Section resolution_examples.
Import conflict_resolution.



(** C1, evaluated.  Two memberships; Ann votes "opt1", votes again "opt2",
    then Bob votes "opt1": both members have voted.  Each of the three
    submissions is accepted and answered with the ballot as it was stored
    at creation, empty and with tally 0: no vote is recorded, so every
    submission is tested as 0 + 1 against 2 memberships, and no winner is
    announced. *)
Lemma accepted_votes_are_not_recorded :
  let opened := scenario.open_voting scenario.two_members in
  let stored :=
    VotingData [] 0 (JArr [JStr "opt1"; JStr "opt2"]) "in_progress" in
  count (in_session 1) (session_agents opened) = 2
  ∧ map cr_resolution_data (conflict_resolutions opened) = [stored]
  ∧ map returned_data
        [fst scenario.revote_first; fst scenario.revote_second;
         fst scenario.revote_third]
    = [Some stored; Some stored; Some stored]
  ∧ snd scenario.revote_third = opened.
Proof. vm_compute. done. Qed.

(** C2, the claim as stated fails.  The resolution is opened while Ann is
    the only member.  Voting at once, Ann completes the vote: the winner is
    announced.  When Bob joins before Ann votes, the same vote (tally 1,
    the count at creation) is compared with 2 and completes nothing: no
    announcement, the resolution still in progress. *)
Lemma late_member_moves_the_denominator :
  count (in_session 1) (session_agents scenario.one_member) = 1
  ∧ fst scenario.early_vote = Raise (NameError "func")
  ∧ map msg_content (messages (snd scenario.early_vote))
    = ["beta question"; "alpha question";
       "Conflict resolved by voting. The winning option is: opt1"]
  ∧ count (in_session 1) (session_agents scenario.late_joiner) = 2
  ∧ is_ok (fst scenario.late_vote) = true
  ∧ map msg_content (messages (snd scenario.late_vote))
    = ["beta question"; "alpha question"]
  ∧ map (λ c, data_status (cr_resolution_data c))
        (conflict_resolutions (snd scenario.late_vote))
    = [Some (JStr "in_progress")].
Proof. vm_compute. done. Qed.

End resolution_examples.

(** ** Delegation and synthesis (gemini_service.py, manager_agent.py) *)

Section decoding.
Variable E : Env.

(** C7, as the code has it.  What the two delegation functions return is
    decided by [json.loads] alone.  On an answer for which it raises
    [JSONDecodeError] they return normally, with the plan whose thought is
    "Failed to parse response" and whose list of assignments is empty.  An
    answer that decodes is returned as decoded, whatever its shape: nothing
    checks that it is a plan.  Any other exception of the decoder leaves
    the function. *)
Theorem delegation_follows_the_decoder (user_message : string)
    (available_agents : list AgentData) (calls calls' : Calls)
    (response : string) :
  generate_response E user_message
    (Some (delegation_instructions available_agents)) calls
  = (Ok response, calls') →
  arun E (length calls)
       (manager_agent.delegation_kwargs user_message available_agents)
  = Ok response →
  let service := run_manager_workflow E user_message available_agents calls in
  let agent :=
    manager_agent.process_message E user_message available_agents calls in
  let calls'' :=
    (calls ++ [manager_agent.delegation_kwargs user_message
                 available_agents])%list in
  (∀ msg, json_loads E response = Raise (JSONDecodeError msg) →
     service = (Ok failed_plan, calls') ∧ agent = (Ok failed_plan, calls''))
  ∧ (∀ decoded, json_loads E response = Ok decoded →
       service = (Ok decoded, calls') ∧ agent = (Ok decoded, calls''))
  ∧ (∀ e, json_loads E response = Raise e →
       (∀ msg, e ≠ JSONDecodeError msg) →
       service = (Raise e, calls') ∧ agent = (Raise e, calls''))
  ∧ json_get failed_plan "assigned_agents" = Ok (Some (JArr []))
  ∧ json_get failed_plan "thought" = Ok (Some (JStr "Failed to parse response")).
Proof.
  intros Hservice Hagent service agent calls''. subst service agent calls''.
  unfold run_manager_workflow, manager_agent.process_message.
  rewrite Hservice, Hagent.
  split; [by intros msg ->|]. split; [by intros decoded ->|].
  split; [|done].
  intros e -> Hother. destruct e; try done. by destruct (Hother msg).
Qed.

(** C10, as the code has it.  On an empty list both [resolve_conflicts]
    return "No responses to resolve" and leave the record of service calls
    untouched.  On a list that is not empty, [ManagerAgent] makes no call
    and answers with the content of the first response, which it reads
    with [responses[0]["content"]]; [LangChainService] makes the synthesis
    call, lets an exception of that call pass, and then follows
    [json.loads]: on [JSONDecodeError] the result is the content of the
    first response (the text "No valid response" when it has none), a
    decoded answer is returned as decoded, and any other exception of the
    decoder leaves the function. *)
Theorem synthesis_follows_the_decoder (first_response : odict json)
    (rest : list (odict json)) (calls calls' : Calls) (response : string) :
  synthesis_call E (first_response :: rest) calls = (Ok response, calls') →
  let responses := first_response :: rest in
  let empty_result := Ok (JObj [("result", JStr "No responses to resolve")]) in
  let service := gemini_service.resolve_conflicts E responses calls in
  gemini_service.resolve_conflicts E [] calls = (empty_result, calls)
  ∧ manager_agent.resolve_conflicts [] calls = (empty_result, calls)
  ∧ manager_agent.resolve_conflicts responses calls
    = (match dict_get first_response "content" with
       | Some content => Ok (JObj [("result", content)])
       | None => Raise (KeyError "content")
       end, calls)
  ∧ (∀ msg, json_loads E response = Raise (JSONDecodeError msg) →
       service
       = (Ok (JObj [("thought", JStr "Failed to parse response");
                    ("result",
                     default (JStr "No valid response")
                             (dict_get first_response "content"))]),
          calls'))
  ∧ (∀ decoded, json_loads E response = Ok decoded →
       service = (Ok decoded, calls'))
  ∧ (∀ e, json_loads E response = Raise e →
       (∀ msg, e ≠ JSONDecodeError msg) →
       service = (Raise e, calls'))
  ∧ (∀ (E' : Env) e calls1,
       synthesis_call E' responses calls = (Raise e, calls1) →
       gemini_service.resolve_conflicts E' responses calls = (Raise e, calls1)).
Proof.
  intros Hcall responses empty_result service. subst responses service.
  unfold synthesis_call in Hcall.
  split; [reflexivity|]. split; [reflexivity|]. split.
  { simpl. by destruct (dict_get first_response "content"). }
  unfold gemini_service.resolve_conflicts. rewrite Hcall.
  split; [by intros msg ->|]. split; [by intros decoded ->|]. split.
  - intros e -> Hother. destruct e; try done. by destruct (Hother msg).
  - intros E' e calls1 Hfail. unfold synthesis_call in Hfail.
    by rewrite Hfail.
Qed.

End decoding.

Section decoding_examples.

(** An answer in prose: both delegation functions fall back. *)
Lemma delegation_follows_the_decoder_witness :
  fst (run_manager_workflow (scenario.always scenario.prose) "Write a poem"
         scenario.roster [])
  = Ok failed_plan
  ∧ fst (manager_agent.process_message (scenario.always scenario.prose)
           "Write a poem" scenario.roster [])
    = Ok failed_plan.
Proof.
  destruct (delegation_follows_the_decoder (scenario.always scenario.prose)
              "Write a poem" scenario.roster []
              (snd (generate_response (scenario.always scenario.prose)
                      "Write a poem"
                      (Some (delegation_instructions scenario.roster)) []))
              scenario.prose)
    as (Hfallback & _); [reflexivity|reflexivity|].
  destruct (Hfallback "Expecting value") as [-> ->]; [vm_compute; reflexivity|].
  split; reflexivity.
Defined.

(** C7, the claim as stated fails.  An answer that is JSON but no plan (an
    object with a thought and no assignments) is returned as it is, neither
    emptied nor marked as a parse failure; and an answer of a thousand
    opening brackets, on which [json.loads] raises [RecursionError], makes
    both delegation functions raise. *)
Lemma delegation_returns_half_plans_and_raises :
  let half := scenario.always scenario.thought_only in
  let deep := scenario.always scenario.deep_nesting in
  let too_deep :=
    RecursionError "maximum recursion depth exceeded while decoding a JSON array from a unicode string" in
  fst (run_manager_workflow half "Write a poem" scenario.roster [])
  = Ok (JObj [("thought", JStr "Ann should write it")])
  ∧ fst (manager_agent.process_message half "Write a poem" scenario.roster [])
    = Ok (JObj [("thought", JStr "Ann should write it")])
  ∧ field_of (fst (run_manager_workflow half "Write a poem" scenario.roster []))
             "assigned_agents"
    = Ok None
  ∧ String.length scenario.deep_nesting = 1000%nat
  ∧ fst (run_manager_workflow deep "Write a poem" scenario.roster [])
    = Raise too_deep
  ∧ fst (manager_agent.process_message deep "Write a poem" scenario.roster [])
    = Raise too_deep.
Proof. vm_compute. done. Qed.

(** Two answers and a synthesis in prose: the first answer is the result. *)
Lemma synthesis_follows_the_decoder_witness :
  gemini_service.resolve_conflicts (scenario.always scenario.prose)
    scenario.two_answers []
  = (Ok (JObj [("thought", JStr "Failed to parse response");
               ("result", JStr "Roses are red")]),
     snd (synthesis_call (scenario.always scenario.prose)
            scenario.two_answers []))
  ∧ gemini_service.resolve_conflicts (scenario.always scenario.prose) [] []
    = (Ok (JObj [("result", JStr "No responses to resolve")]), []).
Proof.
  destruct (synthesis_follows_the_decoder (scenario.always scenario.prose)
              [("content", JStr "Roses are red"); ("agent_name", JStr "Ann")]
              [[("content", JStr "Violets are blue"); ("agent_name", JStr "Bob")]]
              []
              (snd (synthesis_call (scenario.always scenario.prose)
                      scenario.two_answers []))
              scenario.prose)
    as (Hempty & _ & _ & Hfallback & _); [reflexivity|].
  split; [|exact Hempty].
  apply (Hfallback "Expecting value"). vm_compute. reflexivity.
Defined.

(** C10, the claim as stated fails: the synthesis is not total.  A first
    response without content makes [ManagerAgent.resolve_conflicts] raise
    [KeyError] and gives [LangChainService.resolve_conflicts] the result
    "No valid response"; a synthesis answer of a thousand opening
    brackets, which is not JSON, makes [LangChainService] raise; and so
    does a failure of the synthesis call itself. *)
Lemma synthesis_is_not_total :
  let nameless : list (odict json) := [[("agent_name", JStr "Ann")]] in
  let down := fixtures.env (λ _, Raise (ServiceError "rate limited")) in
  manager_agent.resolve_conflicts nameless [] = (Raise (KeyError "content"), [])
  ∧ field_of (fst (gemini_service.resolve_conflicts
                     (scenario.always scenario.prose) nameless [])) "result"
    = Ok (Some (JStr "No valid response"))
  ∧ fst (gemini_service.resolve_conflicts
           (scenario.always scenario.deep_nesting) scenario.two_answers [])
    = Raise (RecursionError "maximum recursion depth exceeded while decoding a JSON array from a unicode string")
  ∧ fst (gemini_service.resolve_conflicts down scenario.two_answers [])
    = Raise (ServiceError "rate limited").
Proof. vm_compute. done. Qed.

End decoding_examples.

(** ** Unknown message types (server.py, connection.py) *)

Section unknown_type.
Variable E : Env.
Implicit Types (reg : Registry) (out : Outboxes).

Lemma received_send_json (c ws : WebSocket) (m : json) out :
  received (send_json c m out) ws
  = if decide (ws = c) then (received out c ++ [m])%list else received out ws.
Proof.
  unfold received, send_json. destruct (decide (ws = c)) as [->|Hne].
  - by rewrite lookup_insert_eq.
  - by rewrite lookup_insert_ne.
Qed.

Lemma received_send_direct (sid cid : string) (m : json) reg out
    (ws : WebSocket) :
  received (server.send_direct_message sid cid m reg out) ws
  = if decide (lookup_conn reg sid cid = Some ws)
    then (received out ws ++ [m])%list else received out ws.
Proof.
  unfold server.send_direct_message, lookup_conn.
  destruct (reg !! sid) as [conns|] eqn:Hs; simpl.
  - destruct (conns !! cid) as [c|] eqn:Hc.
    + rewrite received_send_json.
      destruct (decide (ws = c)), (decide (Some c = Some ws)); simplify_eq; done.
    + destruct (decide (None = Some ws)); simplify_eq; done.
  - done.
Qed.

(** In [websocket_endpoint] a message of any other type changes nothing but
    the sender's outbox, which gains the error envelope. *)
Lemma server_unknown_type (sid cid : string) (data : odict json) reg
    (st : server.State) :
  let message_type := default (JStr "") (dict_get data "type") in
  json_eq_str message_type "user_message" = false →
  json_eq_str message_type "agent_added" = false →
  let st' := server.on_receive E sid cid data reg st in
  server.st_db st' = server.st_db st
  ∧ server.st_calls st' = server.st_calls st
  ∧ ∀ ws, received (server.st_out st') ws
          = if decide (lookup_conn reg sid cid = Some ws)
            then (received (server.st_out st) ws
                  ++ [server.error_envelope
                        (fstr ["Unknown message type: "; py_str E message_type])])%list
            else received (server.st_out st) ws.
Proof.
  intros mt Huser Hadded st'. subst st'. unfold server.on_receive.
  fold mt. rewrite Huser, Hadded. unfold server.reply_error. simpl.
  split; [done|]. split; [done|]. intros ws. apply received_send_direct.
Qed.

(** In [WebSocketService.handle_message] the same holds whenever the
    client id is not the empty string. *)
Lemma service_unknown_type (sid cid : string) (data : odict json) reg out :
  let message_type := default JNull (dict_get data "type") in
  json_eq_str message_type "user_message" = false →
  json_eq_str message_type "agent_added" = false →
  cid ≠ "" →
  ∀ ws, received (connection.handle_message E data sid cid reg out) ws
        = if decide (lookup_conn reg sid cid = Some ws)
          then (received out ws
                ++ [JObj [("type", JStr "error");
                          ("message",
                           JStr (fstr ["Unknown message type: ";
                                       py_str E message_type]))]])%list
          else received out ws.
Proof.
  intros mt Huser Hadded Hcid ws. unfold connection.handle_message.
  fold mt. rewrite Huser, Hadded. unfold connection.send_message, lookup_conn.
  destruct cid as [|a cid']; [done|].
  destruct (reg !! sid) as [conns|] eqn:Hs; simpl.
  - destruct (conns !! String a cid') as [c|] eqn:Hc.
    + rewrite received_send_json.
      destruct (decide (ws = c)), (decide (Some c = Some ws)); simplify_eq; done.
    + destruct (decide (None = Some ws)); simplify_eq; done.
  - done.
Qed.

Lemma other_type (given : option json) (missing : json) (name : string) :
  given ≠ Some (JStr name) →
  json_eq_str missing name = false →
  json_eq_str (default missing given) name = false.
Proof.
  intros Hne Hmissing. destruct given as [[| | | |s| |]|]; simpl; try done.
  destruct (String.eqb_spec s name) as [->|]; done.
Qed.

(** C8.  A message whose type is neither "user_message" nor "agent_added"
    is answered with an envelope of type "error" whose message names the
    type, and that envelope goes to the websocket registered for the
    sender's (session id, client id) pair and to no other websocket; the
    database and the record of service calls are untouched.  This holds in
    [websocket_endpoint] for every client id and in
    [WebSocketService.handle_message] for every client id that is not the
    empty string, which a client id taken from the websocket path never
    is. *)
Theorem unknown_type_answers_sender_only (sid cid : string)
    (data : odict json) reg (st : server.State) :
  dict_get data "type" ≠ Some (JStr "user_message") →
  dict_get data "type" ≠ Some (JStr "agent_added") →
  let envelope (given : json) :=
    JObj [("type", JStr "error");
          ("message", JStr (fstr ["Unknown message type: "; py_str E given]))] in
  let to_sender_only (after : Outboxes) (payload : json) :=
    ∀ ws, received after ws
          = if decide (lookup_conn reg sid cid = Some ws)
            then (received (server.st_out st) ws ++ [payload])%list
            else received (server.st_out st) ws in
  let st' := server.on_receive E sid cid data reg st in
  server.st_db st' = server.st_db st
  ∧ server.st_calls st' = server.st_calls st
  ∧ to_sender_only (server.st_out st')
      (envelope (default (JStr "") (dict_get data "type")))
  ∧ (cid ≠ "" →
     to_sender_only
       (connection.handle_message E data sid cid reg (server.st_out st))
       (envelope (default JNull (dict_get data "type")))).
Proof.
  intros Huser Hadded envelope to_sender_only st'.
  destruct (server_unknown_type sid cid data reg st) as (Hdb & Hcalls & Hout).
  { by apply other_type. }
  { by apply other_type. }
  split; [exact Hdb|]. split; [exact Hcalls|]. split; [exact Hout|].
  intros Hcid ws. apply service_unknown_type; [by apply other_type..|done].
Qed.

End unknown_type.

Section unknown_type_example.

(** Client "b" of session "s" sends a message of type "bogus": websocket 1
    receives the error, websocket 0 of client "a" nothing. *)
Lemma unknown_type_answers_sender_only_witness :
  let E := scenario.always "ok" in
  let data : odict json := [("type", JStr "bogus")] in
  let error :=
    JObj [("type", JStr "error");
          ("message", JStr "Unknown message type: bogus")] in
  let st' :=
    server.on_receive E "s" "b" data scenario.two_clients
                      (scenario.start scenario.base_db) in
  let out := connection.handle_message E data "s" "b" scenario.two_clients ∅ in
  received (server.st_out st') 1%nat = [error]
  ∧ received (server.st_out st') 0%nat = []
  ∧ received out 1%nat = [error]
  ∧ received out 0%nat = [].
Proof.
  intros E data error st' out.
  destruct (unknown_type_answers_sender_only E "s" "b" data
              scenario.two_clients (scenario.start scenario.base_db))
    as (_ & _ & Hserver & Hservice); [discriminate|discriminate|].
  split; [exact (Hserver 1%nat)|]. split; [exact (Hserver 0%nat)|].
  split; [exact (Hservice ltac:(discriminate) 1%nat)|].
  exact (Hservice ltac:(discriminate) 0%nat).
Defined.

End unknown_type_example.

(** ** Single-agent mode and empty plans (server.py) *)

Section degradation.
Variable E : Env.
Import server.

Lemma failed_plan_no_assignments : no_assignments failed_plan.
Proof. by right. Qed.

(** C4, as the code has it.  Single-agent mode is chosen by the absence of
    a manager membership, not by an empty plan.  Without a manager the
    first membership's agent is run once on the raw user text, and the
    user message and its one answer are stored and the answer broadcast.
    With a manager and a plan without assignments (as after a parse
    failure) no agent is run: the delegation call is the only service call,
    the user message is the only row stored, and nothing is sent. *)
Theorem empty_plan_runs_no_agent (session_id client_id : string)
    (message : odict json) (reg : Registry) (st : State) (sid : Z)
    (db_session : Session) (agent_to_use : SessionAgent)
    (others : list SessionAgent) :
  py_int E session_id = Some sid →
  first (λ s, session_id_ s =? sid) (sessions (st_db st)) = Some db_session →
  List.filter (in_session sid) (session_agents (st_db st))
  = agent_to_use :: others →
  (∀ agent response calls',
     first sa_is_manager (agent_to_use :: others) = None →
     first (λ a, agent_id_ a =? sa_agent_id agent_to_use) (agents (st_db st))
     = Some agent →
     run_agent_workflow E (agent_data_of agent) (content_of E message)
                        (st_calls st) = (Ok response, calls') →
     let db_message := user_row E st message sid db_session in
     let db1 := add_message db_message (st_db st) in
     let agent_db_message :=
       new_message db1 response sid (Some (sa_id agent_to_use)) None
                   (Some (msg_id db_message)) None in
     process_user_message E session_id client_id message reg st
     = {| st_db := add_message agent_db_message db1;
          st_calls := calls';
          st_out :=
            broadcast_agent_message session_id
              (JObj (response_dict E agent_db_message response
                       (agent_name agent) (agent_role agent)))
              reg (st_out st) |}
     ∧ length calls' = S (length (st_calls st)))
  ∧ (∀ manager_agent manager plan calls',
       first sa_is_manager (agent_to_use :: others) = Some manager_agent →
       first (λ a, agent_id_ a =? sa_agent_id manager_agent) (agents (st_db st))
       = Some manager →
       run_manager_workflow E (content_of E message)
         (collect_available (st_db st) (agent_to_use :: others)) (st_calls st)
       = (Ok plan, calls') →
       no_assignments plan →
       process_user_message E session_id client_id message reg st
       = {| st_db := add_message (user_row E st message sid db_session) (st_db st);
            st_calls := calls';
            st_out := st_out st |}
       ∧ length calls' = S (length (st_calls st))).
Proof.
  intros Hint Hsession Hmembers. split.
  - intros agent response calls' Hnomgr Hagent Hrun dbm db1 adm.
    split.
    + unfold process_user_message, process_body.
      rewrite Hint, Hsession, Hmembers, Hnomgr.
      unfold single_agent. rewrite Hagent, Hrun. reflexivity.
    + unfold run_agent_workflow, apply_agent_persona in Hrun.
      destruct (generate_response _ _ _ _) as [[r|e] c] eqn:Hgen;
        [|discriminate].
      unfold generate_response in Hgen.
      injection Hgen as _ <-. injection Hrun as _ <-.
      rewrite length_app. simpl. lia.
  - intros manager_agent manager plan calls' Hmgr Hmanager Hplan Hempty.
    split.
    + unfold process_user_message, process_body.
      rewrite Hint, Hsession, Hmembers, Hmgr.
      unfold delegate_and_run. rewrite Hmanager. simpl st_calls. simpl st_db.
      rewrite Hplan.
      destruct Hempty as [-> | ->]; reflexivity.
    + unfold run_manager_workflow in Hplan.
      destruct (generate_response _ _ _ _) as [[r|e] c] eqn:Hgen;
        [|discriminate].
      unfold generate_response in Hgen. injection Hgen as _ <-.
      destruct (json_loads E r) as [v|[]]; try discriminate;
        injection Hplan as _ <-; rewrite length_app; simpl; lia.
Qed.

End degradation.

Section degradation_examples.
Import server.

(** C4, the claim as stated fails: Max manages session 1 and the service
    answers the delegation call in scenario.prose.  The plan is empty; the run ends
    with one service call (the delegation), one stored row (the user
    message) and nothing sent to the connected client: no agent answered. *)
Lemma empty_plan_gives_no_response :
  let st' :=
    on_receive (scenario.always scenario.prose) "1" "c" scenario.poem_request scenario.one_client
               (scenario.start scenario.with_manager) in
  fst (run_manager_workflow (scenario.always scenario.prose) "Write a poem"
         (collect_available scenario.with_manager
            (session_agents scenario.with_manager)) [])
  = Ok failed_plan
  ∧ length (st_calls st') = 1%nat
  ∧ map (λ m, (msg_content m, msg_session_agent_id m))
        (messages (st_db st'))
    = [("beta question", None); ("alpha question", None);
       ("Write a poem", None)]
  ∧ received (st_out st') 0%nat = [].
Proof. vm_compute. done. Qed.

End degradation_examples.

Section more_examples.
Import server conflict_resolution.

(** With Max as manager, a scenario.prose answer to the delegation call; with Ann
    and Bob alone, Ann answers the raw text. *)
Lemma empty_plan_runs_no_agent_witness :
  (∃ calls',
     process_user_message (scenario.always scenario.prose) "1" "c" scenario.poem_request
                          scenario.one_client (scenario.start scenario.with_manager)
     = {| st_db :=
            add_message
              (user_row (scenario.always scenario.prose) (scenario.start scenario.with_manager)
                        scenario.poem_request 1 (scenario.session 1 "alpha"))
              scenario.with_manager;
          st_calls := calls';
          st_out := ∅ |}
     ∧ length calls' = 1%nat)
  ∧ (∃ st', process_user_message (scenario.always "Roses are red") "1" "c"
              scenario.poem_request scenario.one_client (scenario.start scenario.two_members) = st'
            ∧ length (st_calls st') = 1%nat
            ∧ map msg_content (messages (st_db st'))
              = ["beta question"; "alpha question"; "Write a poem";
                 "Ann (Writer): Roses are red"]).
Proof.
  split.
  - destruct (empty_plan_runs_no_agent (scenario.always scenario.prose) "1" "c"
                scenario.poem_request scenario.one_client (scenario.start scenario.with_manager) 1
                (scenario.session 1 "alpha") scenario.max_membership [scenario.ann_membership 2])
      as [_ Hmanaged]; [reflexivity..|].
    eexists. apply (Hmanaged scenario.max_membership (scenario.agent 3 "Max" "Manager")
                             failed_plan).
    + reflexivity.
    + reflexivity.
    + vm_compute. reflexivity.
    + apply failed_plan_no_assignments.
  - destruct (empty_plan_runs_no_agent (scenario.always "Roses are red") "1" "c"
                scenario.poem_request scenario.one_client (scenario.start scenario.two_members) 1
                (scenario.session 1 "alpha") (scenario.ann_membership 1)
                [scenario.bob_membership 2])
      as [Hsingle _]; [reflexivity..|].
    eexists. split; [reflexivity|].
    destruct (Hsingle (scenario.agent 4 "Ann" "Writer")
                      "Ann (Writer): Roses are red"
                      (snd (run_agent_workflow (scenario.always "Roses are red")
                              (agent_data_of (scenario.agent 4 "Ann" "Writer"))
                              "Write a poem" [])))
      as [-> Hcalls]; [reflexivity| reflexivity | vm_compute; reflexivity |].
    split; [exact Hcalls|]. vm_compute. reflexivity.
Defined.

(** Ann's vote after Bob joined: the stored tally plus one is 1, the
    session now has 2 memberships. *)
Lemma voting_denominator_is_current_count_witness :
  scenario.late_vote
  = (Ok {| cr_id := 1; cr_session_id := 1; cr_conflict_message_id := 11;
           cr_resolution_method := "voting";
           cr_resolution_data :=
             VotingData [] 0 (JArr [JStr "opt1"; JStr "opt2"]) "in_progress";
           cr_resolved_by_agent_id := None;
           cr_resolution_message_id := None;
           cr_resolved_at := None |},
     scenario.late_joiner).
Proof.
  edestruct (voting_denominator_is_current_count 1
               (scenario.ballot 1 "opt1") scenario.late_joiner scenario.owner)
    as [_ Hopen].
  - vm_compute. reflexivity.
  - vm_compute. reflexivity.
  - reflexivity.
  - reflexivity.
  - reflexivity.
  - reflexivity.
  - discriminate.
  - reflexivity.
  - vm_compute. reflexivity.
  - apply Hopen. vm_compute. reflexivity.
Defined.

(** The worked example of the vote count: three voters, "opt1" twice. *)
Example three_voters_pick_opt1 :
  winning_option [("1", "opt1"); ("2", "opt2"); ("3", "opt1")] = Some "opt1".
Proof. reflexivity. Qed.

(** On a tie the option met first in the ballot's order wins, and the
    ballot keeps each voter at the place of that voter's first vote. *)
Example tie_goes_to_first_in_ballot :
  winning_option (dict_set (dict_set [("1", "opt1")] "2" "opt1") "1" "opt2")
  = Some "opt2".
Proof. reflexivity. Qed.

End more_examples.

(** * Further properties *)

(** ** The registry under connect and disconnect *)

Section registry_more.
Implicit Types (reg : Registry) (conns : gmap string WebSocket)
  (out : Outboxes).

Lemma disconnect_delete (sid cid : string) reg :
  connection.disconnect sid cid reg
  = match reg !! sid with
    | None => reg
    | Some conns =>
        if bool_decide (delete cid conns = ∅) then delete sid reg
        else <[sid := delete cid conns]> reg
    end.
Proof.
  unfold connection.disconnect.
  destruct (reg !! sid) as [conns|]; [|done].
  destruct (conns !! cid) eqn:Hc; [done|].
  by rewrite (delete_id conns cid Hc).
Qed.

Lemma server_disconnect_same (sid cid : string) reg :
  server.disconnect sid cid reg = connection.disconnect sid cid reg.
Proof. reflexivity. Qed.


(** X2.  [connect] binds the pair it names to the websocket and changes no
    other pair. *)
Theorem connect_binds_only_its_pair (ws : WebSocket)
    (sid cid sid' cid' : string) reg :
  lookup_conn (connection.connect ws sid cid reg) sid' cid'
  = if decide (sid' = sid ∧ cid' = cid) then Some ws
    else lookup_conn reg sid' cid'.
Proof.
  rewrite connect_insert. unfold lookup_conn.
  destruct (decide (sid' = sid)) as [->|Hne].
  - rewrite lookup_insert_eq. simpl.
    destruct (decide (cid' = cid)) as [->|Hc].
    + by rewrite decide_True, lookup_insert_eq.
    + rewrite decide_False by (intros [? ?]; done). rewrite lookup_insert_ne by done.
      by destruct (reg !! sid).
  - rewrite lookup_insert_ne by done. by rewrite decide_False by (intros [? ?]; done).
Qed.

Lemma connect_keeps_sessions_inhabited (ws : WebSocket) (sid cid : string) reg :
  no_empty_sessions reg → no_empty_sessions (connection.connect ws sid cid reg).
Proof.
  intros Hreg s. rewrite connect_insert.
  destruct (decide (s = sid)) as [->|Hne].
  - rewrite lookup_insert_eq. intros [= H]. by apply insert_non_empty in H.
  - rewrite lookup_insert_ne by done. apply Hreg.
Qed.

Lemma disconnect_keeps_sessions_inhabited (sid cid : string) reg :
  no_empty_sessions reg → no_empty_sessions (connection.disconnect sid cid reg).
Proof.
  intros Hreg s. rewrite disconnect_delete.
  destruct (reg !! sid) as [conns|] eqn:Hs; [|apply Hreg].
  case_bool_decide as Hempty.
  - destruct (decide (s = sid)) as [->|Hne].
    + by rewrite lookup_delete_eq.
    + rewrite lookup_delete_ne by done. apply Hreg.
  - destruct (decide (s = sid)) as [->|Hne].
    + rewrite lookup_insert_eq. by intros [= H].
    + rewrite lookup_insert_ne by done. apply Hreg.
Qed.

(** X3.  Whatever clients connect and disconnect, starting from the empty
    registry, no session is ever left in the registry without a
    connection: the session entry goes with its last client. *)
Theorem sessions_reaped_with_last_client (ops : list registry_op) :
  no_empty_sessions (run_registry ops ∅).
Proof.
  assert (no_empty_sessions (∅ : Registry)) as Hstart.
  { intros s. by rewrite lookup_empty. }
  revert Hstart. generalize (∅ : Registry).
  induction ops as [|[ws sid cid|sid cid] ops IH]; intros reg Hreg; simpl.
  - exact Hreg.
  - by apply IH, connect_keeps_sessions_inhabited.
  - by apply IH, disconnect_keeps_sessions_inhabited.
Qed.

(** X4.  Connecting a client that was not registered and disconnecting it
    again gives back the registry as it was (no session being empty before). *)
Theorem disconnect_undoes_connect (ws : WebSocket) (sid cid : string) reg :
  no_empty_sessions reg →
  lookup_conn reg sid cid = None →
  connection.disconnect sid cid (connection.connect ws sid cid reg) = reg.
Proof.
  intros Hreg Hnew. rewrite disconnect_delete, connect_insert.
  rewrite lookup_insert_eq, delete_insert_eq.
  unfold lookup_conn in Hnew.
  destruct (reg !! sid) as [conns|] eqn:Hs; simpl in *.
  - rewrite (delete_id conns cid Hnew).
    rewrite bool_decide_eq_false_2.
    + rewrite insert_insert_eq. by apply insert_id.
    + intros ->. by apply (Hreg sid).
  - rewrite delete_empty, bool_decide_eq_true_2 by done.
    rewrite delete_insert_eq. by apply delete_id.
Qed.

Lemma disconnect_undoes_connect_witness :
  connection.disconnect "s" "c" (connection.connect 2%nat "s" "c" scenario.two_clients)
  = scenario.two_clients.
Proof.
  apply (disconnect_undoes_connect 2%nat "s" "c" scenario.two_clients).
  - apply connect_keeps_sessions_inhabited, connect_keeps_sessions_inhabited.
    intros s. by rewrite lookup_empty.
  - vm_compute. reflexivity.
Defined.

(** X5.  Disconnecting twice is the same as disconnecting once; in
    particular a client that is not registered can be disconnected
    without effect on the other clients. *)
Theorem disconnect_idempotent (sid cid : string) reg :
  connection.disconnect sid cid (connection.disconnect sid cid reg)
  = connection.disconnect sid cid reg.
Proof.
  rewrite (disconnect_delete sid cid reg).
  destruct (reg !! sid) as [conns|] eqn:Hs.
  - case_bool_decide as Hempty.
    + rewrite disconnect_delete. by rewrite lookup_delete_eq.
    + rewrite disconnect_delete, lookup_insert_eq, delete_delete_eq.
      rewrite bool_decide_eq_false_2 by done. by rewrite insert_insert_eq.
  - rewrite disconnect_delete. by rewrite Hs.
Qed.

End registry_more.

(** ** Delivery *)

Section delivery.
Implicit Types (reg : Registry) (conns : gmap string WebSocket)
  (out : Outboxes).

Lemma bindings_empty (ws : WebSocket) : bindings ∅ ws = 0%nat.
Proof. unfold bindings. by rewrite map_filter_empty, map_size_empty. Qed.

Lemma bindings_insert (i : string) (x ws : WebSocket) conns :
  conns !! i = None →
  bindings (<[i:=x]> conns) ws
  = if decide (x = ws) then S (bindings conns ws) else bindings conns ws.
Proof.
  intros Hi. unfold bindings. destruct (decide (x = ws)) as [->|Hne].
  - rewrite map_filter_insert_True by done.
    apply map_size_insert_None. rewrite map_lookup_filter, Hi. done.
  - rewrite map_filter_insert_not'; [done|done|]. intros y. by rewrite Hi.
Qed.

Lemma received_send_all conns (m : json) out (ws : WebSocket) :
  received (send_all conns m out) ws
  = (received out ws ++ replicate (bindings conns ws) m)%list.
Proof.
  unfold send_all. revert ws.
  apply (map_fold_weak_ind
           (λ r c, ∀ ws, received r ws
                         = (received out ws ++ replicate (bindings c ws) m)%list)).
  - intros ws. by rewrite bindings_empty, app_nil_r.
  - intros i x c r Hi IH ws. rewrite received_send_json, bindings_insert by done.
    destruct (decide (ws = x)) as [->|Hne].
    + rewrite decide_True by done. rewrite IH, replicate_S_end.
      by rewrite app_assoc.
    + rewrite decide_False by done. apply IH.
Qed.

(** X6.  A broadcast appends the message to the outbox of a websocket once
    for every client id of the session bound to it, after what the
    websocket had already been sent; websockets outside the session, and
    every websocket when the session has no entry, receive nothing.  This
    holds for notifications and agent messages of [WebSocketManager] and for
    the untargeted [send_message] and agent messages of
    [ConnectionManager]. *)
Theorem broadcast_reaches_each_binding (sid : string) (m : json) reg out
    (ws : WebSocket) :
  let fanout (payload : json) :=
    (received out ws
     ++ replicate (bindings (default ∅ (reg !! sid)) ws) payload)%list in
  let wrapped := JObj [("type", JStr "agent_message"); ("data", m)] in
  received (server.broadcast_notification sid m reg out) ws = fanout m
  ∧ received (server.broadcast_agent_message sid m reg out) ws = fanout wrapped
  ∧ received (connection.send_message m sid None reg out) ws = fanout m
  ∧ received (connection.broadcast_agent_message m sid reg out) ws
    = fanout wrapped.
Proof.
  cbv zeta.
  unfold server.broadcast_notification, server.broadcast_agent_message,
    connection.send_message, connection.broadcast_agent_message.
  destruct (reg !! sid) as [conns|]; simpl.
  - by rewrite !received_send_all.
  - by rewrite !bindings_empty, !app_nil_r.
Qed.

Lemma received_send_targeted (sid cid : string) (m : json) reg out
    (ws : WebSocket) :
  cid ≠ "" →
  received (connection.send_message m sid (Some cid) reg out) ws
  = if decide (lookup_conn reg sid cid = Some ws)
    then (received out ws ++ [m])%list else received out ws.
Proof.
  intros Hcid. unfold connection.send_message, lookup_conn.
  destruct cid as [|a cid']; [done|].
  destruct (reg !! sid) as [conns|] eqn:Hs; simpl.
  - destruct (conns !! String a cid') as [c|] eqn:Hc.
    + rewrite received_send_json.
      destruct (decide (ws = c)), (decide (Some c = Some ws)); simplify_eq; done.
    + destruct (decide (None = Some ws)); simplify_eq; done.
  - done.
Qed.

(** X7.  A targeted send reaches the websocket registered for the
    (session, client) pair and nothing else, and is a silent no-op when the
    pair is not registered: [send_direct_message] for every client id,
    [ConnectionManager.send_message] for every non-empty one. *)
Theorem targeted_send_reaches_only_target (sid cid : string) (m : json)
    reg out (ws : WebSocket) :
  let delivered :=
    if decide (lookup_conn reg sid cid = Some ws)
    then (received out ws ++ [m])%list else received out ws in
  received (server.send_direct_message sid cid m reg out) ws = delivered
  ∧ (cid ≠ "" →
     received (connection.send_message m sid (Some cid) reg out) ws = delivered)
  ∧ (lookup_conn reg sid cid = None →
     server.send_direct_message sid cid m reg out = out).
Proof.
  cbv zeta. split; [apply received_send_direct|]. split.
  - apply received_send_targeted.
  - unfold lookup_conn, server.send_direct_message.
    destruct (reg !! sid) as [conns|]; simpl; [|done].
    by intros ->.
Qed.

End delivery.

(** ** Keys, memberships and sessions (sandbox.py) *)

Section keys.

Lemma next_id_above (ids : list Z) (i : Z) : i ∈ ids → i < next_id ids.
Proof.
  unfold next_id. induction ids as [|j ids IH]; simpl.
  - by intros ?%elem_of_nil.
  - intros [->|Hin]%elem_of_cons; [lia|]. specialize (IH Hin). lia.
Qed.

Lemma next_id_fresh (ids : list Z) : next_id ids ∉ ids.
Proof. intros Hin%next_id_above. lia. Qed.

Lemma find_none_all {A} (p : A → bool) (l : list A) (x : A) :
  List.find p l = None → x ∈ l → p x = false.
Proof.
  intros Hnone Hin%list_elem_of_In. by apply (List.find_none _ _ Hnone).
Qed.

Lemma find_snoc_fresh {A} (p : A → bool) (l : list A) (x : A) :
  (∀ y, y ∈ l → p y = false) → p x = true → List.find p (l ++ [x]) = Some x.
Proof.
  intros Hl Hx. induction l as [|y l IH]; simpl.
  - by rewrite Hx.
  - rewrite (Hl y) by apply list_elem_of_here.
    apply IH. intros z Hz. apply Hl. by apply list_elem_of_further.
Qed.

Lemma find_app_found {A} (p : A → bool) (l k : list A) (x : A) :
  List.find p l = Some x → List.find p (l ++ k) = Some x.
Proof.
  induction l as [|y l IH]; simpl; [done|].
  destruct (p y); [done|]. exact IH.
Qed.

(** X8.  [add_agent_to_session] keeps the membership table well formed:
    membership keys stay pairwise distinct and no agent is in the same
    session twice. *)
Theorem memberships_stay_distinct (session_id agent_id : Z)
    (is_manager : bool) (db : DB) (current_user : Z) :
  memberships_distinct db →
  memberships_distinct
    (snd (sandbox.add_agent_to_session session_id agent_id is_manager db
            current_user)).
Proof.
  intros [Hids Hpairs]. unfold sandbox.add_agent_to_session.
  destruct (first _ (sessions db)); [|done].
  destruct (first _ (agents db)); [|done].
  destruct (first _ (session_agents db)) eqn:Hpair; [done|].
  destruct (_ && _); [done|]. simpl.
  unfold memberships_distinct. simpl. rewrite !map_app. simpl. split.
  - apply NoDup_app. split; [done|]. split; [|apply NoDup_singleton].
    intros i Hi ->%list_elem_of_singleton. by apply next_id_fresh in Hi.
  - apply NoDup_app. split; [done|]. split; [|apply NoDup_singleton].
    intros pr Hin ->%list_elem_of_singleton.
    apply list_elem_of_fmap in Hin as (sa & Heq & Hsa).
    injection Heq as Hs Ha.
    pose proof (find_none_all _ _ sa Hpair Hsa) as Hfalse. simpl in Hfalse.
    rewrite <-Hs, <-Ha, !Z.eqb_refl in Hfalse. done.
Qed.

Lemma memberships_stay_distinct_witness :
  memberships_distinct
    (snd (sandbox.add_agent_to_session 1 4 false scenario.two_members
            scenario.owner)).
Proof.
  apply (memberships_stay_distinct 1 4 false scenario.two_members
           scenario.owner).
  split; refine (bool_decide_unpack _ _); vm_compute; exact I.
Defined.

End keys.

Section threads.

(** X9.  [send_message] gives the new message a key above every stored
    key.  So when the posted parent is absent or the key of a stored
    message, every reply stays younger than the message it answers, and
    following parent links can never come back to where it started. *)
Theorem send_message_keeps_replies_younger (session_id : Z)
    (message : MessageCreate) (db : DB) (current_user : Z) :
  parents_older db →
  (∀ p, mc_parent_id message = Some p → p ∈ map msg_id (messages db)) →
  let outcome := sandbox.send_message session_id message db current_user in
  parents_older (snd outcome)
  ∧ (∀ m, fst outcome = Ok m → ∀ m', m' ∈ messages db → msg_id m' < msg_id m).
Proof.
  intros Hold Hparent outcome. subst outcome. unfold sandbox.send_message.
  destruct (first _ (sessions db)); simpl; [|by split].
  rewrite (stored_parent_accepted _ _ Hparent).
  split.
  - intros m p [Hin | ->%list_elem_of_singleton]%elem_of_app Hp.
    + by apply Hold.
    + simpl in *. apply next_id_above. by apply Hparent.
  - intros m [= <-] m' Hin. simpl. apply next_id_above.
    apply list_elem_of_fmap. eauto.
Qed.

Lemma base_db_replies_younger : parents_older scenario.base_db.
Proof.
  intros m p Hin. vm_compute in Hin.
  repeat (apply elem_of_cons in Hin as [->|Hin]; [discriminate|]).
  by apply elem_of_nil in Hin.
Qed.

Lemma send_message_keeps_replies_younger_witness :
  parents_older
    (snd (sandbox.send_message 1 scenario.cross_reply scenario.base_db
            scenario.owner)).
Proof.
  apply (send_message_keeps_replies_younger 1 scenario.cross_reply
           scenario.base_db scenario.owner base_db_replies_younger).
  intros p [= <-]. apply list_elem_of_here.
Defined.

End threads.

Section sessions.
Import sandbox_sessions.

(** X10.  A session started by [start_sandbox] is active, belongs to the
    caller, and is what [get_session] returns to the caller for its key;
    the sessions that could be read before are read as before. *)
Theorem started_session_is_readable (session_data : SessionCreate) (db : DB)
    (current_user : Z) :
  let '(new_session, db') := start_sandbox session_data db current_user in
  get_session (session_id_ new_session) db' current_user = Ok new_session
  ∧ session_owner_id new_session = current_user
  ∧ session_is_active new_session = true
  ∧ ∀ session_id user s,
      get_session session_id db user = Ok s →
      get_session session_id db' user = Ok s.
Proof.
  simpl. split; [|split; [done|split; [done|]]].
  - unfold get_session, first. simpl.
    rewrite find_snoc_fresh; [done| |by rewrite !Z.eqb_refl].
    intros y Hy. simpl.
    destruct (Z.eqb_spec (session_id_ y)
                (next_id (map session_id_ (sessions db)))) as [Heq|]; [|done].
    exfalso. apply (next_id_fresh (map session_id_ (sessions db))).
    rewrite <-Heq. apply list_elem_of_fmap. eauto.
  - intros sid user s. unfold get_session, first. simpl.
    destruct (List.find _ (sessions db)) as [s'|] eqn:Hfind; [|done].
    intros [= ->]. by rewrite (find_app_found _ _ _ _ Hfind).
Qed.





(** Outside that range the window is the engine's: the sample engine reads
    a negative limit as no limit. *)
Example negative_limit_is_the_engines :
  get_sessions 0 (-1) scenario.base_db scenario.owner
  = Ok (sessions scenario.base_db)
  ∧ get_sessions 0 1 scenario.base_db scenario.owner
    = Ok [scenario.session 1 "alpha"].
Proof. split; reflexivity. Qed.

End sessions.

(** ** Counting votes (conflict_resolution.py) *)

Section counting.
Import conflict_resolution.

Lemma dict_get_set_ne {V} (d : odict V) (k k' : string) (v : V) :
  k ≠ k' → dict_get (dict_set d k v) k' = dict_get d k'.
Proof.
  intros Hne. induction d as [|[k0 v0] d IH]; simpl.
  - destruct (String.eqb_spec k k'); [done|done].
  - destruct (String.eqb_spec k0 k) as [->|Hk0]; simpl.
    + destruct (String.eqb_spec k k'); [done|done].
    + destruct (String.eqb_spec k0 k'); [done|]. exact IH.
Qed.

Lemma dict_get_none_keys {V} (d : odict V) (k : string) :
  dict_get d k = None → k ∉ map fst d.
Proof.
  induction d as [|[k0 v0] d IH]; simpl.
  - intros _ ?%elem_of_nil. done.
  - destruct (String.eqb_spec k0 k) as [->|Hne]; [done|].
    intros Hnone [->|Hin]%elem_of_cons; [done|]. by apply IH.
Qed.

Lemma dict_set_keys {V} (d : odict V) (k : string) (v : V) :
  map fst (dict_set d k v)
  = match dict_get d k with
    | Some _ => map fst d
    | None => (map fst d ++ [k])%list
    end.
Proof.
  induction d as [|[k0 v0] d IH]; simpl; [done|].
  destruct (String.eqb_spec k0 k) as [->|Hne]; simpl; [done|].
  rewrite IH. by destruct (dict_get d k).
Qed.

Lemma dict_set_keys_nodup {V} (d : odict V) (k : string) (v : V) :
  NoDup (map fst d) → NoDup (map fst (dict_set d k v)).
Proof.
  intros Hd. rewrite dict_set_keys.
  destruct (dict_get d k) eqn:Hk; [done|].
  apply NoDup_app. split; [done|]. split; [|apply NoDup_singleton].
  intros x Hx ->%list_elem_of_singleton. by apply dict_get_none_keys in Hk.
Qed.

Lemma dict_get_elem {V} (d : odict V) (k : string) (v : V) :
  dict_get d k = Some v → (k, v) ∈ d.
Proof.
  induction d as [|[k0 v0] d IH]; simpl; [done|].
  destruct (String.eqb_spec k0 k) as [->|Hne].
  - intros [= ->]. apply list_elem_of_here.
  - intros H. by apply list_elem_of_further, IH.
Qed.

Lemma elem_dict_get {V} (d : odict V) (k : string) (v : V) :
  NoDup (map fst d) → (k, v) ∈ d → dict_get d k = Some v.
Proof.
  induction d as [|[k0 v0] d IH]; simpl.
  - by intros _ ?%elem_of_nil.
  - intros [Hk0 Hd]%NoDup_cons [[= -> ->]|Hin]%elem_of_cons.
    + by rewrite String.eqb_refl.
    + destruct (String.eqb_spec k0 k) as [->|Hne]; [|by apply IH].
      exfalso. apply Hk0. apply list_elem_of_fmap. by exists (k, v).
Qed.

Lemma count_loop_get (l : list string) (acc : odict Z) (o : string) :
  dict_get (fold_left count_step l acc) o
  = match dict_get acc o with
    | Some a => Some (a + occurrences o l)
    | None => if occurrences o l =? 0 then None else Some (occurrences o l)
    end.
Proof.
  revert acc. induction l as [|v l IH]; intros acc; simpl.
  - unfold occurrences. simpl. destruct (dict_get acc o); [f_equal; lia|done].
  - rewrite IH. unfold count_step. unfold occurrences. simpl.
    destruct (String.eqb_spec o v) as [->|Hne]; simpl.
    + rewrite dict_get_set. destruct (dict_get acc v); simpl.
      * f_equal. lia.
      * destruct (Z.eqb_spec (Z.of_nat (S (length (List.filter (String.eqb v) l)))) 0);
          [lia|]. f_equal. lia.
    + by rewrite dict_get_set_ne.
Qed.

Lemma count_loop_nodup (l : list string) (acc : odict Z) :
  NoDup (map fst acc) → NoDup (map fst (fold_left count_step l acc)).
Proof.
  revert acc. induction l as [|v l IH]; intros acc Hacc; simpl; [done|].
  apply IH. by apply dict_set_keys_nodup.
Qed.

Lemma count_votes_get (votes : odict string) (o : string) :
  dict_get (count_votes votes) o
  = if ballots_for o votes =? 0 then None else Some (ballots_for o votes).
Proof. unfold count_votes. by rewrite (count_loop_get _ [] o). Qed.

Lemma count_votes_nodup (votes : odict string) :
  NoDup (map fst (count_votes votes)).
Proof. apply (count_loop_nodup _ []). simpl. apply NoDup_nil_2. Qed.

(** X12.  The counting loop of [submit_vote] counts every ballot once: an
    option is listed in [vote_counts] exactly when some ballot names it,
    with the number of ballots that name it, and no option is listed
    twice. *)
Theorem every_ballot_counted_once (votes : odict string) :
  NoDup (map fst (count_votes votes))
  ∧ ∀ o n, (o, n) ∈ count_votes votes ↔ (n = ballots_for o votes ∧ 0 < n).
Proof.
  split; [apply count_votes_nodup|]. intros o n. split.
  - intros Hin%elem_dict_get; [|apply count_votes_nodup].
    rewrite count_votes_get in Hin.
    destruct (Z.eqb_spec (ballots_for o votes) 0); [done|].
    injection Hin as <-. split; [done|]. unfold ballots_for in *. lia.
  - intros [-> Hpos]. apply dict_get_elem. rewrite count_votes_get.
    destruct (Z.eqb_spec (ballots_for o votes) 0); [lia|done].
Qed.

Lemma winner_loop (l : list (string * Z)) (m0 : Z) (w0 : option string) :
  let best := fold_left winner_step l (m0, w0) in
  m0 ≤ fst best
  ∧ (∀ o n, (o, n) ∈ l → n ≤ fst best)
  ∧ (best = (m0, w0) ∨ ∃ o, snd best = Some o ∧ (o, fst best) ∈ l).
Proof.
  revert m0 w0. induction l as [|[o n] l IH]; intros m0 w0; simpl.
  - split; [lia|]. split; [|by left].
    intros o n Hin. by apply elem_of_nil in Hin.
  - destruct (Z.gtb_spec n m0) as [Hgt|Hle].
    + destruct (IH n (Some o)) as (Hm & Hall & Hw). split; [lia|]. split.
      * intros o' n' [[= -> ->]|Hin]%elem_of_cons; [done|]. by apply (Hall o').
      * right. destruct Hw as [->|(o' & Ho' & Hin)].
        -- exists o. split; [done|]. apply list_elem_of_here.
        -- exists o'. split; [done|]. by apply list_elem_of_further.
    + destruct (IH m0 w0) as (Hm & Hall & Hw). split; [lia|]. split.
      * intros o' n' [[= -> ->]|Hin]%elem_of_cons; [lia|]. by apply (Hall o').
      * destruct Hw as [->|(o' & Ho' & Hin)]; [by left|].
        right. exists o'. split; [done|]. by apply list_elem_of_further.
Qed.

Lemma find_winner_loop (vote_counts : odict Z) :
  find_winner vote_counts = fold_left winner_step vote_counts (0, None).
Proof.
  unfold find_winner. generalize (0, @None string).
  induction vote_counts as [|[o n] l IH]; intros [m w]; simpl; [done|].
  apply IH.
Qed.

(** X13.  The option announced by [submit_vote] has the most ballots: it
    received at least one, and no option received more.  A ballot box that
    is not empty always has a winner. *)
Theorem winner_has_most_ballots (votes : odict string) :
  (∀ w, winning_option votes = Some w →
        0 < ballots_for w votes
        ∧ ∀ o, ballots_for o votes ≤ ballots_for w votes)
  ∧ (votes ≠ [] → is_Some (winning_option votes)).
Proof.
  unfold winning_option. rewrite find_winner_loop.
  destruct (winner_loop (count_votes votes) 0 None) as (Hm & Hall & Hw).
  cbv zeta in *.
  set (best := fold_left winner_step (count_votes votes) (0, None)) in *.
  split.
  - intros w Hbest. destruct Hw as [Heq|(o & Ho & Hin)].
    { rewrite Heq in Hbest. done. }
    rewrite Hbest in Ho. injection Ho as <-.
    apply elem_dict_get in Hin; [|apply count_votes_nodup].
    rewrite count_votes_get in Hin.
    destruct (Z.eqb_spec (ballots_for w votes) 0); [done|].
    injection Hin as Hw. split; [unfold ballots_for in *; lia|].
    intros o. rewrite Hw.
    destruct (Z.eqb_spec (ballots_for o votes) 0) as [->|Hne]; [lia|].
    apply (Hall o). apply dict_get_elem. rewrite count_votes_get.
    by destruct (Z.eqb_spec (ballots_for o votes) 0).
  - intros Hvotes. destruct votes as [|[k v] votes]; [done|].
    assert (0 < ballots_for v ((k, v) :: votes)) as Hpos.
    { unfold ballots_for. simpl. rewrite String.eqb_refl. simpl. lia. }
    assert (0 < fst best) as Hbest.
    { eapply Z.lt_le_trans; [exact Hpos|]. apply (Hall v).
      apply dict_get_elem. rewrite count_votes_get.
      destruct (Z.eqb_spec (ballots_for v ((k, v) :: votes)) 0); [lia|done]. }
    destruct Hw as [Heq|(o & Ho & _)]; [|by rewrite Ho].
    rewrite Heq in Hbest. simpl in Hbest. lia.
Qed.

End counting.

(** ** The resolution routes (conflict_resolution.py) *)

Section routes_more.
Variable E : Env.
Import conflict_resolution.

Lemma find_elem {A} (p : A → bool) (l : list A) (x : A) :
  List.find p l = Some x → x ∈ l ∧ p x = true.
Proof. intros [Hin Hp]%List.find_some. by rewrite list_elem_of_In. Qed.



(** X14.  A vote that [submit_vote] accepts was cast on a voting
    resolution still in progress, by a membership of that resolution's
    session, with the stored tally plus one below the number of
    memberships.  What is returned is the resolution as it is stored, and
    the database is left as it was: the accepted vote is not recorded. *)
Theorem accepted_vote_is_a_members (conflict_resolution_id : Z)
    (vote_data : VoteData) (db : DB) (current_user : Z)
    (row : ConflictResolution) :
  fst (submit_vote conflict_resolution_id vote_data db current_user) = Ok row →
  ∃ session_agent agent_id vote votes total_votes options,
    row ∈ conflict_resolutions db
    ∧ cr_id row = conflict_resolution_id
    ∧ cr_resolution_method row = "voting"
    ∧ cr_resolution_data row
      = VotingData votes total_votes options "in_progress"
    ∧ vd_agent_id vote_data = Some agent_id
    ∧ vd_vote vote_data = Some vote
    ∧ session_agent ∈ session_agents db
    ∧ sa_id session_agent = agent_id
    ∧ sa_session_id session_agent = cr_session_id row
    ∧ total_votes + 1 < count (in_session (cr_session_id row))
                              (session_agents db)
    ∧ snd (submit_vote conflict_resolution_id vote_data db current_user) = db.
Proof.
  unfold submit_vote.
  destruct (first _ (conflict_resolutions db)) as [stored|] eqn:Hrow; [|done].
  destruct (first _ (sessions db)) as [session|]; [|done].
  destruct (negb (session_owner_id session =? current_user)); [done|].
  destruct (String.eqb_spec (cr_resolution_method stored) "voting")
    as [Hmethod|]; [|done]. simpl.
  destruct (data_status (cr_resolution_data stored)) as [status|] eqn:Hstatus;
    [|done].
  destruct (json_eq_str status "in_progress") eqn:Hprogress; [|done]. simpl.
  destruct (vd_agent_id vote_data) as [agent_id|]; [|done].
  destruct (vd_vote vote_data) as [vote|]; [|done].
  destruct (agent_id =? 0); [done|].
  destruct (first _ (session_agents db)) as [session_agent|] eqn:Hsa; [|done].
  destruct (cr_resolution_data stored) as [|votes total_votes options st| |]
    eqn:Hdata; try done.
  destruct (Z.geb_spec (total_votes + 1)
              (count (in_session (cr_session_id stored)) (session_agents db)))
    as [|Hshort]; [done|].
  simpl. intros [= <-].
  apply find_elem in Hrow as [Hrow_in ?%Z.eqb_eq].
  apply find_elem in Hsa as [Hsa_in [?%Z.eqb_eq ?%Z.eqb_eq]%andb_prop].
  simpl in Hstatus. injection Hstatus as <-. simpl in Hprogress.
  apply String.eqb_eq in Hprogress as ->.
  exists session_agent, agent_id, vote, votes, total_votes, options.
  rewrite Hdata. repeat split; done.
Qed.

(** Ann's vote after Bob joined. *)
Lemma accepted_vote_is_a_members_witness :
  (∃ session_agent,
     session_agent ∈ session_agents scenario.late_joiner
     ∧ sa_id session_agent = 1)
  ∧ snd scenario.late_vote = scenario.late_joiner.
Proof.
  destruct (accepted_vote_is_a_members 1 (scenario.ballot 1 "opt1")
              scenario.late_joiner scenario.owner
              {| cr_id := 1; cr_session_id := 1;
                 cr_conflict_message_id := 11;
                 cr_resolution_method := "voting";
                 cr_resolution_data :=
                   VotingData [] 0 (JArr [JStr "opt1"; JStr "opt2"])
                              "in_progress";
                 cr_resolved_by_agent_id := None;
                 cr_resolution_message_id := None;
                 cr_resolved_at := None |})
    as (session_agent & agent_id & vote & votes & total_votes & options
        & _ & _ & _ & _ & Hagent & _ & Hin & Hid & _ & _ & Hsame).
  - vm_compute. reflexivity.
  - split; [|exact Hsame].
    exists session_agent. split; [exact Hin|].
    injection Hagent as <-. exact Hid.
Defined.

(** X15.  [submit_vote] never touches agents, sessions, memberships or
    resolutions.  The branch that announces a winner appends exactly one
    message; every other outcome, the accepted vote among them, leaves the
    database as it was, and an accepted vote is answered with a stored
    resolution. *)
Theorem submit_vote_footprint (conflict_resolution_id : Z)
    (vote_data : VoteData) (db : DB) (current_user : Z) :
  let outcome := submit_vote conflict_resolution_id vote_data db current_user in
  agents (snd outcome) = agents db
  ∧ sessions (snd outcome) = sessions db
  ∧ session_agents (snd outcome) = session_agents db
  ∧ conflict_resolutions (snd outcome) = conflict_resolutions db
  ∧ match fst outcome with
    | Ok row => snd outcome = db ∧ row ∈ conflict_resolutions db
    | Raise (NameError _) =>
        ∃ m, messages (snd outcome) = (messages db ++ [m])%list
    | Raise _ => snd outcome = db
    end.
Proof.
  cbv zeta. unfold submit_vote.
  destruct (first _ (conflict_resolutions db)) as [row|] eqn:Hrow; [|done].
  destruct (first _ (sessions db)) as [session|]; [|done].
  destruct (negb (session_owner_id session =? current_user)); [done|].
  destruct (negb (cr_resolution_method row =? "voting")%string); [done|].
  destruct (negb _); [done|].
  destruct (vd_agent_id vote_data) as [agent_id|]; [|done].
  destruct (vd_vote vote_data) as [vote|]; [|done].
  destruct (agent_id =? 0); [done|].
  destruct (first _ (session_agents db)) as [session_agent|]; [|done].
  destruct (cr_resolution_data row) as [|votes total_votes options st| |];
    try done.
  destruct (_ >=? _).
  - simpl. repeat split; eauto.
  - apply find_elem in Hrow as [Hrow_in _]. done.
Qed.

End routes_more.

Section creation.
Variable E : Env.
Import conflict_resolution.

Lemma generate_logs_one_call (prompt : string) (instructions : option string)
    (calls : Calls) :
  ∃ kwargs,
    snd (generate_response E prompt instructions calls)
    = (calls ++ [kwargs])%list
    ∧ dict_get kwargs "prompt" = Some prompt.
Proof. unfold generate_response. eexists. split; reflexivity. Qed.

Lemma agent_workflow_logs_one_call (agent : AgentData) (task : string)
    (calls : Calls) :
  ∃ kwargs,
    snd (run_agent_workflow E agent task calls) = (calls ++ [kwargs])%list
    ∧ dict_get kwargs "prompt" = Some task.
Proof.
  unfold run_agent_workflow, apply_agent_persona.
  destruct (generate_logs_one_call task
              (Some (unlines [
      "";
      "        You are an AI assistant with the following characteristics:";
      fstr ["        Name: "; ad_name agent];
      fstr ["        Role: "; ad_role agent];
      fstr ["        Personality: "; ad_personality agent];
      "        ";
      fstr ["        "; ad_system_instructions agent];
      "        ";
      "        Respond in character, maintaining the personality and role described above.";
      "        " ])) calls) as (kwargs & Hlog & Hprompt).
  exists kwargs. split; [|done].
  destruct (generate_response E task _ calls) as [[r|e] calls']; exact Hlog.
Qed.



End creation.

Section creation_examples.
Import conflict_resolution.



End creation_examples.

(** ** The message pipeline (server.py) *)

Section pipeline_more.
Variable E : Env.
Import server.

Lemma grows_by_nil (db : DB) : grows_by db db [].
Proof. unfold grows_by. by rewrite app_nil_r. Qed.

Lemma grows_by_add (db db' : DB) (new : list Message) (m : Message) :
  grows_by db db' new → grows_by db (add_message m db') (new ++ [m]).
Proof.
  intros (? & ? & ? & ? & Hm). unfold grows_by. simpl.
  rewrite Hm, app_assoc. done.
Qed.

Lemma run_assignment_grows (sid : Z) (sas : list SessionAgent)
    (avail : list AgentData) (user : Message) (assignment : json)
    (st : State) :
  msg_session_id user = sid →
  ∃ new, grows_by (st_db st)
           (st_db (snd (run_assignment E sid sas avail user assignment st))) new
         ∧ Forall (threaded_under user) new.
Proof.
  intros Hsid. unfold run_assignment.
  destruct (json_get assignment "agent_id") as [agent_id|]; [|
    destruct (json_get assignment "task"); exists []; split;
      [apply grows_by_nil|done|apply grows_by_nil|done]].
  destruct (json_get assignment "task") as [task|];
    [|exists []; split; [apply grows_by_nil|done]].
  destruct (first _ avail) as [agent_data|];
    [|exists []; split; [apply grows_by_nil|done]].
  destruct (run_agent_workflow E agent_data _ (st_calls st)) as [[response|e] calls'];
    [|exists []; split; [apply grows_by_nil|done]].
  destruct (match sas with [] => Ok 0 | _ :: _ => _ end) as [n|];
    [|exists []; split; [apply grows_by_nil|done]].
  destruct (first _ sas) as [session_agent|];
    [|exists []; split; [apply grows_by_nil|done]].
  eexists [_]. split.
  - simpl. apply (grows_by_add _ _ []), grows_by_nil.
  - apply Forall_singleton. unfold threaded_under. simpl. by rewrite Hsid.
Qed.

Lemma run_assignments_grow (sid : Z) (sas : list SessionAgent)
    (avail : list AgentData) (user : Message) (assignments : list json)
    (st : State) :
  msg_session_id user = sid →
  ∃ new, grows_by (st_db st)
           (st_db (snd (run_assignments E sid sas avail user assignments st)))
           new
         ∧ Forall (threaded_under user) new.
Proof.
  intros Hsid. revert st.
  induction assignments as [|assignment rest IH]; intros st; simpl.
  - exists []. split; [apply grows_by_nil|done].
  - destruct (run_assignment_grows sid sas avail user assignment st Hsid)
      as (new1 & Hgrow1 & Hall1).
    destruct (run_assignment E sid sas avail user assignment st)
      as [[r|e] st1]; simpl in *; [|by exists new1].
    destruct (IH st1) as (new2 & Hgrow2 & Hall2).
    destruct (run_assignments E sid sas avail user rest st1)
      as [[rs|e] st2]; simpl in *.
    + exists (new1 ++ new2)%list. split; [|by apply Forall_app].
      destruct Hgrow1 as (? & ? & ? & ? & Hm1).
      destruct Hgrow2 as (? & ? & ? & ? & Hm2).
      unfold grows_by. rewrite Hm2, Hm1, app_assoc. repeat split; congruence.
    + exists (new1 ++ new2)%list. split; [|by apply Forall_app].
      destruct Hgrow1 as (? & ? & ? & ? & Hm1).
      destruct Hgrow2 as (? & ? & ? & ? & Hm2).
      unfold grows_by. rewrite Hm2, Hm1, app_assoc. repeat split; congruence.
Qed.

Lemma resolve_step_grows (session_id : string) (sid : Z)
    (manager_agent : SessionAgent) (manager : Agent) (user : Message)
    (agent_responses : list (odict json)) (reg : Registry) (st : State) :
  msg_session_id user = sid →
  ∃ new, grows_by (st_db st)
           (st_db (snd (resolve_step E session_id sid manager_agent manager
                          user agent_responses reg st))) new
         ∧ Forall (threaded_under user) new.
Proof.
  intros Hsid. unfold resolve_step.
  destruct (1 <? length agent_responses)%nat;
    [|exists []; split; [apply grows_by_nil|done]].
  destruct (resolve_conflicts E agent_responses (st_calls st))
    as [[resolution_result|e] calls'];
    [|exists []; split; [apply grows_by_nil|done]].
  destruct (json_get resolution_result "result") as [r|];
    [|exists []; split; [apply grows_by_nil|done]].
  eexists [_]. split.
  - simpl. apply (grows_by_add _ _ []), grows_by_nil.
  - apply Forall_singleton. unfold threaded_under. simpl. by rewrite Hsid.
Qed.

Lemma grows_by_trans (db1 db2 db3 : DB) (new1 new2 : list Message) :
  grows_by db1 db2 new1 → grows_by db2 db3 new2 →
  grows_by db1 db3 (new1 ++ new2).
Proof.
  intros (? & ? & ? & ? & Hm1) (? & ? & ? & ? & Hm2).
  unfold grows_by. rewrite Hm2, Hm1, app_assoc. repeat split; congruence.
Qed.

Lemma single_agent_grows (session_id client_id : string) (sid : Z)
    (db_session : Session) (message : odict json) (agent_to_use : SessionAgent)
    (reg : Registry) (st : State) :
  ∃ new, grows_by (st_db st)
           (st_db (snd (single_agent E session_id client_id sid db_session
                          message agent_to_use reg st))) new
         ∧ one_thread sid (content_of E message) new.
Proof.
  unfold single_agent.
  destruct (first _ (agents (st_db st))) as [agent|];
    [|exists []; split; [apply grows_by_nil|by left]].
  destruct (run_agent_workflow E _ _ (st_calls st)) as [[response|e] calls'];
    [|exists []; split; [apply grows_by_nil|by left]].
  eexists [_; _]. split.
  - simpl. apply (grows_by_add _ _ [_]), (grows_by_add _ _ []), grows_by_nil.
  - right. eexists _, _. split; [reflexivity|]. repeat split.
    apply Forall_singleton. unfold threaded_under. simpl. eauto.
Qed.

Lemma delegate_and_run_grows (session_id client_id : string) (sid : Z)
    (db_session : Session) (message : odict json)
    (session_agents : list SessionAgent) (manager_agent : SessionAgent)
    (reg : Registry) (st : State) :
  ∃ new, grows_by (st_db st)
           (st_db (snd (delegate_and_run E session_id client_id sid db_session
                          message session_agents manager_agent reg st))) new
         ∧ one_thread sid (content_of E message) new.
Proof.
  unfold delegate_and_run.
  destruct (first _ (agents (st_db st))) as [manager|];
    [|exists []; split; [apply grows_by_nil|by left]].
  set (user := new_message (st_db st) (content_of E message) sid None
                           (Some (session_owner_id db_session)) None None).
  set (st1 := with_db st (add_message user (st_db st))).
  assert (grows_by (st_db st) (st_db st1) [user]) as Hstart.
  { apply (grows_by_add _ _ []), grows_by_nil. }
  assert (∀ replies, Forall (threaded_under user) replies →
            one_thread sid (content_of E message) (user :: replies)) as Hthread.
  { intros replies Hall. right. exists user, replies. by repeat split. }
  destruct (run_manager_workflow E _ _ (st_calls st1))
    as [[delegation_result|e] calls'];
    [|exists [user]; split; [exact Hstart|by apply Hthread]].
  destruct (json_get delegation_result "assigned_agents") as [assigned|];
    [|exists [user]; split; [exact Hstart|by apply Hthread]].
  destruct (iter_items _) as [assignments|];
    [|exists [user]; split; [exact Hstart|by apply Hthread]].
  destruct (run_assignments_grow sid session_agents
              (collect_available (st_db st) session_agents) user assignments
              (with_calls st1 calls') eq_refl) as (new1 & Hgrow1 & Hall1).
  destruct (run_assignments E sid session_agents _ user assignments _)
    as [[agent_responses|e] st2]; simpl in Hgrow1.
  - destruct (resolve_step_grows session_id sid manager_agent manager user
                agent_responses reg st2 eq_refl) as (new2 & Hgrow2 & Hall2).
    exists ([user] ++ new1 ++ new2)%list. split.
    + destruct (resolve_step E session_id sid manager_agent manager user
                  agent_responses reg st2) as [[u|e] st3]; simpl in *;
        apply (grows_by_trans _ _ _ [user] (new1 ++ new2) Hstart),
              (grows_by_trans _ _ _ new1 new2 Hgrow1 Hgrow2).
    + apply Hthread. by apply Forall_app.
  - exists ([user] ++ new1)%list. split.
    + simpl. apply (grows_by_trans _ _ _ [user] new1 Hstart Hgrow1).
    + by apply Hthread.
Qed.

(** X18.  Whatever a run of [process_user_message] meets, it leaves agents,
    sessions, memberships and resolutions alone and only appends messages:
    either none, or the user's text as a root message of the session
    followed by replies, each in the same session, authored by a
    membership, and with the user's message as its parent. *)
Theorem pipeline_threads_replies (session_id client_id : string)
    (message : odict json) (reg : Registry) (st : State) :
  let st' := process_user_message E session_id client_id message reg st in
  ∃ new,
    grows_by (st_db st) (st_db st') new
    ∧ (new = []
       ∨ ∃ sid, py_int E session_id = Some sid
                ∧ one_thread sid (content_of E message) new).
Proof.
  cbv zeta.
  assert (∃ new,
            grows_by (st_db st)
              (st_db (snd (process_body E session_id client_id message reg st)))
              new
            ∧ (new = []
               ∨ ∃ sid, py_int E session_id = Some sid
                        ∧ one_thread sid (content_of E message) new)) as Hbody.
  { unfold process_body.
    destruct (py_int E session_id) as [sid|];
      [|exists []; split; [apply grows_by_nil|by left]].
    destruct (first _ (sessions (st_db st))) as [db_session|];
      [|exists []; split; [apply grows_by_nil|by left]].
    destruct (List.filter _ _) as [|agent_to_use others];
      [exists []; split; [apply grows_by_nil|by left]|].
    destruct (first sa_is_manager _) as [manager_agent|].
    - destruct (delegate_and_run_grows session_id client_id sid db_session
                  message (agent_to_use :: others) manager_agent reg st)
        as (new & Hgrow & Hthread).
      exists new. split; [done|]. right. eauto.
    - destruct (single_agent_grows session_id client_id sid db_session
                  message agent_to_use reg st) as (new & Hgrow & Hthread).
      exists new. split; [done|]. right. eauto. }
  unfold process_user_message.
  destruct (process_body E session_id client_id message reg st)
    as [[u|e] st']; exact Hbody.
Qed.

End pipeline_more.

Section pipeline_errors.
Variable E : Env.
Import server.

(** What the sender is told and what else changes: nothing. *)
Lemma reply_error_footprint (session_id client_id text : string)
    (reg : Registry) (st : State) (ws : WebSocket) :
  st_db (reply_error session_id client_id text reg st) = st_db st
  ∧ st_calls (reply_error session_id client_id text reg st) = st_calls st
  ∧ received (st_out (reply_error session_id client_id text reg st)) ws
    = if decide (lookup_conn reg session_id client_id = Some ws)
      then (received (st_out st) ws ++ [error_envelope text])%list
      else received (st_out st) ws.
Proof.
  unfold reply_error. simpl. split; [done|]. split; [done|].
  apply received_send_direct.
Qed.

(** X19.  A user message that cannot be processed costs nothing: when the
    session id is not a number, the session does not exist, the session
    has no membership, or the row of the agent that should act (the first
    member, or the manager) is missing, [process_user_message] stores
    nothing, calls the generation service not at all, and sends one error
    envelope, to the sender only. *)
Theorem unusable_request_reaches_sender_only (session_id client_id : string)
    (message : odict json) (reg : Registry) (st : State) :
  let run := process_user_message E session_id client_id message reg st in
  let told text := run = reply_error session_id client_id text reg st in
  (py_int E session_id = None →
   told (fstr ["Error processing message: ";
               "invalid literal for int() with base 10: '"; session_id; "'"]))
  ∧ (∀ sid, py_int E session_id = Some sid →
       first (λ s, session_id_ s =? sid) (sessions (st_db st)) = None →
       told (fstr ["Session "; session_id; " not found"]))
  ∧ (∀ sid db_session, py_int E session_id = Some sid →
       first (λ s, session_id_ s =? sid) (sessions (st_db st))
       = Some db_session →
       (List.filter (in_session sid) (session_agents (st_db st)) = [] →
        told "No agents in this session")
       ∧ (∀ agent_to_use others,
            List.filter (in_session sid) (session_agents (st_db st))
            = agent_to_use :: others →
            (first sa_is_manager (agent_to_use :: others) = None →
             first (λ a, agent_id_ a =? sa_agent_id agent_to_use)
                   (agents (st_db st)) = None →
             told "Agent not found")
            ∧ (∀ manager_agent,
                 first sa_is_manager (agent_to_use :: others)
                 = Some manager_agent →
                 first (λ a, agent_id_ a =? sa_agent_id manager_agent)
                       (agents (st_db st)) = None →
                 told "Manager agent not found"))).
Proof.
  cbv zeta. unfold process_user_message, process_body. split.
  - intros ->. reflexivity.
  - split.
    + intros sid -> ->. reflexivity.
    + intros sid db_session -> ->. split.
      * intros ->. reflexivity.
      * intros agent_to_use others ->. split.
        -- intros -> Hagent. unfold single_agent. by rewrite Hagent.
        -- intros manager_agent -> Hagent. unfold delegate_and_run.
           by rewrite Hagent.
Qed.

(** X20.  When the generation service raises, the sender alone is told,
    with the text of the exception.  Without a manager the failure of the
    one agent call leaves nothing stored, not even the user's message;
    with a manager the user's message is stored before the delegation
    call, and stays stored when that call fails. *)
Theorem service_failure_reaches_sender_only (session_id client_id : string)
    (message : odict json) (reg : Registry) (st : State) (sid : Z)
    (db_session : Session) (agent_to_use : SessionAgent)
    (others : list SessionAgent) (e : exn) (calls' : Calls) :
  py_int E session_id = Some sid →
  first (λ s, session_id_ s =? sid) (sessions (st_db st)) = Some db_session →
  List.filter (in_session sid) (session_agents (st_db st))
  = agent_to_use :: others →
  let told st' :=
    process_user_message E session_id client_id message reg st
    = reply_error session_id client_id
        (fstr ["Error processing message: "; exn_str e]) reg st' in
  (∀ agent,
     first sa_is_manager (agent_to_use :: others) = None →
     first (λ a, agent_id_ a =? sa_agent_id agent_to_use) (agents (st_db st))
     = Some agent →
     run_agent_workflow E (agent_data_of agent) (content_of E message)
                        (st_calls st) = (Raise e, calls') →
     told (with_calls st calls'))
  ∧ (∀ manager_agent manager,
       first sa_is_manager (agent_to_use :: others) = Some manager_agent →
       first (λ a, agent_id_ a =? sa_agent_id manager_agent) (agents (st_db st))
       = Some manager →
       run_manager_workflow E (content_of E message)
         (collect_available (st_db st) (agent_to_use :: others)) (st_calls st)
       = (Raise e, calls') →
       told {| st_db := add_message (user_row E st message sid db_session)
                                    (st_db st);
               st_calls := calls';
               st_out := st_out st |}).
Proof.
  intros Hint Hsession Hmembers told. subst told. cbv beta.
  unfold process_user_message, process_body.
  rewrite Hint, Hsession, Hmembers. split.
  - intros agent -> Hagent Hrun. unfold single_agent.
    by rewrite Hagent, Hrun.
  - intros manager_agent manager -> Hmanager Hrun. unfold delegate_and_run.
    rewrite Hmanager. simpl st_calls. simpl st_db. by rewrite Hrun.
Qed.

(** X21.  A delegation answer that decodes to something other than a plan
    is an error for the sender, not a crash and not a partial run: when
    the decoded value has no [get] (it is not an object) or its
    "assigned_agents" cannot be iterated, the user's message stays stored,
    no agent is run, and the sender alone receives the exception text. *)
Theorem malformed_plan_reaches_sender_only (session_id client_id : string)
    (message : odict json) (reg : Registry) (st : State) (sid : Z)
    (db_session : Session) (agent_to_use : SessionAgent)
    (others : list SessionAgent) (manager_agent : SessionAgent)
    (manager : Agent) (plan : json) (calls' : Calls) (e : exn) :
  py_int E session_id = Some sid →
  first (λ s, session_id_ s =? sid) (sessions (st_db st)) = Some db_session →
  List.filter (in_session sid) (session_agents (st_db st))
  = agent_to_use :: others →
  first sa_is_manager (agent_to_use :: others) = Some manager_agent →
  first (λ a, agent_id_ a =? sa_agent_id manager_agent) (agents (st_db st))
  = Some manager →
  run_manager_workflow E (content_of E message)
    (collect_available (st_db st) (agent_to_use :: others)) (st_calls st)
  = (Ok plan, calls') →
  (json_get plan "assigned_agents" = Raise e
   ∨ ∃ assigned, json_get plan "assigned_agents" = Ok (Some assigned)
                 ∧ iter_items assigned = Raise e) →
  process_user_message E session_id client_id message reg st
  = reply_error session_id client_id
      (fstr ["Error processing message: "; exn_str e]) reg
      {| st_db := add_message (user_row E st message sid db_session) (st_db st);
         st_calls := calls';
         st_out := st_out st |}.
Proof.
  intros Hint Hsession Hmembers Hmgr Hmanager Hplan Hbad.
  unfold process_user_message, process_body.
  rewrite Hint, Hsession, Hmembers, Hmgr. unfold delegate_and_run.
  rewrite Hmanager. simpl st_calls. simpl st_db. rewrite Hplan.
  destruct Hbad as [-> | (assigned & -> & Hiter)]; [reflexivity|].
  simpl. by rewrite Hiter.
Qed.

End pipeline_errors.

Section pipeline_error_examples.
Import server.

(** Ann and Bob alone, and a service that is down. *)
Lemma service_failure_reaches_sender_only_witness :
  process_user_message (fixtures.env (λ _, Raise (ServiceError "quota")))
    "1" "c" scenario.poem_request scenario.one_client
    (scenario.start scenario.two_members)
  = reply_error "1" "c" "Error processing message: quota" scenario.one_client
      (with_calls (scenario.start scenario.two_members)
         (snd (run_agent_workflow
                 (fixtures.env (λ _, Raise (ServiceError "quota")))
                 (agent_data_of (scenario.agent 4 "Ann" "Writer"))
                 "Write a poem" []))).
Proof.
  destruct (service_failure_reaches_sender_only
              (fixtures.env (λ _, Raise (ServiceError "quota")))
              "1" "c" scenario.poem_request scenario.one_client
              (scenario.start scenario.two_members) 1
              (scenario.session 1 "alpha") (scenario.ann_membership 1)
              [scenario.bob_membership 2] (ServiceError "quota")
              (snd (run_agent_workflow
                      (fixtures.env (λ _, Raise (ServiceError "quota")))
                      (agent_data_of (scenario.agent 4 "Ann" "Writer"))
                      "Write a poem" [])))
    as [Hsingle _]; [reflexivity..|].
  apply (Hsingle (scenario.agent 4 "Ann" "Writer")); reflexivity.
Defined.

(** Max manages session 1 and the service answers the delegation call
    with a JSON list. *)
Lemma malformed_plan_reaches_sender_only_witness :
  received
    (st_out (process_user_message (scenario.always "[1, 2]") "1" "c"
               scenario.poem_request scenario.one_client
               (scenario.start scenario.with_manager))) 0%nat
  = [error_envelope
       "Error processing message: 'list' object has no attribute 'get'"].
Proof.
  rewrite (malformed_plan_reaches_sender_only (scenario.always "[1, 2]")
             "1" "c" scenario.poem_request scenario.one_client
             (scenario.start scenario.with_manager) 1
             (scenario.session 1 "alpha") scenario.max_membership
             [scenario.ann_membership 2] scenario.max_membership
             (scenario.agent 3 "Max" "Manager") (JArr [JInt 1; JInt 2])
             (snd (run_manager_workflow (scenario.always "[1, 2]")
                     "Write a poem"
                     (collect_available scenario.with_manager
                        (session_agents scenario.with_manager)) []))
             (AttributeError "'list' object has no attribute 'get'")).
  - vm_compute. reflexivity.
  - reflexivity.
  - reflexivity.
  - reflexivity.
  - reflexivity.
  - reflexivity.
  - vm_compute. reflexivity.
  - left. reflexivity.
Defined.

End pipeline_error_examples.

(** ** The workflows around the generation service (gemini_service.py) *)

Section workflows.
Variable E : Env.

(** X22.  [run_agent_workflow] makes exactly one call into the generation
    service, with the task as the prompt, after the calls already made.
    When the service answers, the result is the answer prefixed by the
    agent's name and role, "name (role): answer"; when it raises, the
    exception passes through.  Instructions that are missing or empty
    reach the service as "You are a helpful AI assistant.". *)
Theorem agent_workflow_contract (agent : AgentData) (task : string)
    (calls : Calls) :
  (∃ kwargs,
     snd (run_agent_workflow E agent task calls) = (calls ++ [kwargs])%list
     ∧ dict_get kwargs "prompt" = Some task
     ∧ fst (run_agent_workflow E agent task calls)
       = match arun E (length calls) kwargs with
         | Ok response =>
             Ok (fstr [ad_name agent; " ("; ad_role agent; "): "; response])
         | Raise e => Raise e
         end)
  ∧ generate_response E task None calls
    = generate_response E task (Some "") calls
  ∧ snd (generate_response E task None calls)
    = (calls ++ [[("prompt", task);
                  ("system_instructions", "You are a helpful AI assistant.")]])%list.
Proof.
  split; [|split; reflexivity].
  unfold run_agent_workflow, apply_agent_persona, generate_response.
  eexists. split.
  { destruct (arun E (length calls) _); reflexivity. }
  split; [reflexivity|].
  simpl. by destruct (arun E (length calls) _).
Qed.

(** X23.  [run_manager_workflow], and [resolve_conflicts] on a list that is
    not empty, make exactly one call into the generation service (the
    user's message, respectively the fixed request to resolve, as prompt)
    and never a second one.  An answer that decodes is returned as decoded,
    whatever its shape; an exception of the service passes through. *)
Theorem workflows_call_once (user_message : string)
    (available_agents : list AgentData) (first_response : odict json)
    (rest : list (odict json)) (calls : Calls) :
  (∃ kwargs,
     snd (run_manager_workflow E user_message available_agents calls)
     = (calls ++ [kwargs])%list
     ∧ dict_get kwargs "prompt" = Some user_message
     ∧ (∀ response plan,
          arun E (length calls) kwargs = Ok response →
          json_loads E response = Ok plan →
          fst (run_manager_workflow E user_message available_agents calls)
          = Ok plan)
     ∧ (∀ e, arun E (length calls) kwargs = Raise e →
             fst (run_manager_workflow E user_message available_agents calls)
             = Raise e))
  ∧ (∃ kwargs,
       snd (gemini_service.resolve_conflicts E (first_response :: rest) calls)
       = (calls ++ [kwargs])%list
       ∧ dict_get kwargs "prompt"
         = Some "Resolve the conflicts between these agent responses."
       ∧ (∀ response result,
            arun E (length calls) kwargs = Ok response →
            json_loads E response = Ok result →
            fst (gemini_service.resolve_conflicts E (first_response :: rest)
                   calls) = Ok result)
       ∧ (∀ e, arun E (length calls) kwargs = Raise e →
               fst (gemini_service.resolve_conflicts E (first_response :: rest)
                      calls) = Raise e)).
Proof.
  split.
  - unfold run_manager_workflow, generate_response. eexists. split.
    { destruct (arun E (length calls) _) as [response|e]; [|reflexivity].
      destruct (json_loads E response) as [v|[]]; reflexivity. }
    split; [reflexivity|]. split.
    + intros response plan Hrun Hplan. by rewrite Hrun, Hplan.
    + intros e Hrun. by rewrite Hrun.
  - unfold gemini_service.resolve_conflicts, generate_response. eexists. split.
    { destruct (arun E (length calls) _) as [response|e]; [|reflexivity].
      destruct (json_loads E response) as [v|[]]; reflexivity. }
    split; [reflexivity|]. split.
    + intros response result Hrun Hresult. by rewrite Hrun, Hresult.
    + intros e Hrun. by rewrite Hrun.
Qed.

End workflows.

(** ** Ownership checks of the sandbox routes (sandbox.py) *)

Section ownership.

(** X24.  The sandbox routes write only for the owner: when
    [add_agent_to_session] succeeds, the session and the agent are both
    stored rows owned by the caller, and when [send_message] succeeds, the
    session is a stored row owned by the caller and the message is stored
    as written by the caller. *)
Theorem sandbox_writes_need_ownership (session_id agent_id : Z)
    (is_manager : bool) (message : MessageCreate) (db : DB)
    (current_user : Z) :
  (is_ok (fst (sandbox.add_agent_to_session session_id agent_id is_manager db
                 current_user)) = true →
   (∃ s, s ∈ sessions db ∧ session_id_ s = session_id
         ∧ session_owner_id s = current_user)
   ∧ (∃ a, a ∈ agents db ∧ agent_id_ a = agent_id
           ∧ agent_owner_id a = current_user))
  ∧ (∀ m, fst (sandbox.send_message session_id message db current_user) = Ok m →
          (∃ s, s ∈ sessions db ∧ session_id_ s = session_id
                ∧ session_owner_id s = current_user)
          ∧ msg_user_id m = Some current_user
          ∧ msg_session_agent_id m = None).
Proof.
  split.
  - unfold sandbox.add_agent_to_session.
    destruct (first _ (sessions db)) as [s|] eqn:Hs; [|done].
    destruct (first _ (agents db)) as [a|] eqn:Ha; [|done].
    intros _.
    apply find_elem in Hs as [Hs_in [?%Z.eqb_eq ?%Z.eqb_eq]%andb_prop].
    apply find_elem in Ha as [Ha_in [?%Z.eqb_eq ?%Z.eqb_eq]%andb_prop].
    eauto 10.
  - intros m. unfold sandbox.send_message.
    destruct (first _ (sessions db)) as [s|] eqn:Hs; [|done].
    destruct (refused_parent db (mc_parent_id message)); [done|].
    simpl. intros [= <-].
    apply find_elem in Hs as [Hs_in [?%Z.eqb_eq ?%Z.eqb_eq]%andb_prop].
    eauto 10.
Qed.

End ownership.

(** ** Bounds on a delegated run (server.py) *)

Section delegated_work.
Variable E : Env.
Import server.

Lemma run_assignment_bound (sid : Z) (sas : list SessionAgent)
    (avail : list AgentData) (user : Message) (assignment : json)
    (st : State) :
  let outcome := run_assignment E sid sas avail user assignment st in
  (length (st_calls st) ≤ length (st_calls (snd outcome))
   ≤ S (length (st_calls st)))%nat
  ∧ st_out (snd outcome) = st_out st
  ∧ (length (st_calls (snd outcome)) = length (st_calls st) →
     messages (st_db (snd outcome)) = messages (st_db st)).
Proof.
  cbv zeta. unfold run_assignment.
  destruct (json_get assignment "agent_id") as [agent_id|];
    [|destruct (json_get assignment "task"); simpl; split; [lia|done|lia|done]].
  destruct (json_get assignment "task") as [task|]; [|simpl; split; [lia|done]].
  destruct (first _ avail) as [agent_data|]; [|simpl; split; [lia|done]].
  destruct (agent_workflow_logs_one_call E agent_data
              (py_str E (default JNull task)) (st_calls st))
    as (kwargs & Hlog & _).
  destruct (run_agent_workflow E agent_data _ (st_calls st))
    as [[response|e] calls']; simpl in Hlog; subst calls'.
  - destruct (match sas with [] => Ok 0 | _ :: _ => _ end) as [n|];
      [destruct (first _ sas) as [session_agent|]|];
      simpl; rewrite length_app; simpl; (split; [lia|split; [done|lia]]).
  - simpl. rewrite length_app. simpl. split; [lia|split; [done|lia]].
Qed.

(** X25.  A delegated run does no more than it was assigned: over a list
    of assignments [run_assignments] makes at most one call into the
    generation service per assignment, returns at most one response per
    assignment, and sends nothing itself (the broadcasts come after the
    loop). *)
Theorem assignments_bound_the_work (sid : Z) (sas : list SessionAgent)
    (avail : list AgentData) (user : Message) (assignments : list json)
    (st : State) :
  let outcome := run_assignments E sid sas avail user assignments st in
  (length (st_calls st) ≤ length (st_calls (snd outcome))
   ≤ length (st_calls st) + length assignments)%nat
  ∧ st_out (snd outcome) = st_out st
  ∧ ∀ agent_responses, fst outcome = Ok agent_responses →
      (length agent_responses ≤ length assignments)%nat.
Proof.
  cbv zeta. revert st.
  induction assignments as [|assignment rest IH]; intros st; simpl.
  - split; [lia|]. split; [done|]. intros ? [= <-]. done.
  - destruct (run_assignment_bound sid sas avail user assignment st)
      as (Hcalls1 & Hout1 & _).
    destruct (run_assignment E sid sas avail user assignment st)
      as [[r|e] st1]; simpl in *; [|split; [lia|done]].
    destruct (IH st1) as (Hcalls2 & Hout2 & Hlen).
    destruct (run_assignments E sid sas avail user rest st1)
      as [[rs|e] st2]; simpl in *.
    + split; [lia|]. split; [congruence|].
      intros ? [= <-]. specialize (Hlen rs eq_refl).
      destruct r; simpl; lia.
    + split; [lia|]. split; [congruence|done].
Qed.

End delegated_work.

(** ** Known message types (server.py, connection.py) *)

Section known_types.
Variable E : Env.
Import server.

(** X26.  The known notifications are fanned out to the whole session and
    change nothing else.  In [websocket_endpoint] an "agent_added" message
    is relayed as a notification with the posted agent id and name (the
    name "Unknown Agent" when none is posted) while the database and the
    record of service calls stay as they were; in
    [WebSocketService.handle_message] a "user_message" is echoed as
    "Received: " followed by its content.  Each websocket of the session
    receives the envelope once per client id bound to it. *)
Theorem known_types_fan_out (session_id client_id : string)
    (data : odict json) (reg : Registry) (st : State) (out : Outboxes)
    (ws : WebSocket) :
  let copies := bindings (default ∅ (reg !! session_id)) ws in
  (dict_get data "type" = Some (JStr "agent_added") →
   let st' := on_receive E session_id client_id data reg st in
   st_db st' = st_db st
   ∧ st_calls st' = st_calls st
   ∧ received (st_out st') ws
     = (received (st_out st) ws
        ++ replicate copies
             (JObj [("type", JStr "agent_added");
                    ("agent_id", default JNull (dict_get data "agent_id"));
                    ("agent_name",
                     default (JStr "Unknown Agent")
                             (dict_get data "agent_name"))]))%list)
  ∧ (dict_get data "type" = Some (JStr "user_message") →
     received (connection.handle_message E data session_id client_id reg out) ws
     = (received out ws
        ++ replicate copies
             (JObj [("type", JStr "agent_message");
                    ("data",
                     JObj [("content",
                            JStr (fstr ["Received: ";
                                        connection.fmt_get E data "content"
                                          (JStr "")]));
                           ("agent_name", JStr "Echo Agent");
                           ("agent_role", JStr "Echo")])]))%list).
Proof.
  cbv zeta. split.
  - intros Htype. unfold on_receive. rewrite Htype. simpl.
    split; [done|]. split; [done|].
    unfold broadcast_notification.
    destruct (reg !! session_id) as [conns|]; simpl.
    + apply received_send_all.
    + by rewrite bindings_empty, app_nil_r.
  - intros Htype. unfold connection.handle_message. rewrite Htype. simpl.
    unfold connection.broadcast_agent_message.
    destruct (reg !! session_id) as [conns|]; simpl.
    + apply received_send_all.
    + by rewrite bindings_empty, app_nil_r.
Qed.

End known_types.
